(** * Machine reconciler of the GCP cluster-api provider

    A shallow embedding of [pkg/cloud/gcp/actuators/machine/reconciler.go]:
    the reconciler's [create], [update], [exists] and [delete] operations,
    the operation poller [waitUntilOperationCompleted] and the state
    projector [reconcileMachineWithCloudState], together with the
    properties the design document states about them.

    Go values are modelled as follows.
    - [string] is [String.string]; [[]byte] is [list Byte.byte]; [int64]
      and [int] are [Z]; a nilable pointer is an [option]; a
      [map[string]T] is a [gmap string T].
    - [error] is the inductive [error]; a Go result [(T, error)] is a
      pair with an [option error] (or a sum where the code never reads
      the value next to a non-nil error).
    - The reconciler mutates its scope, records events and talks to the
      compute service: all of this is threaded through the state monad
      [M] over the record [State]. *)

From Stdlib Require Import ZArith List Lia.
From Stdlib.Strings Require Import String Ascii Byte.
From stdpp Require Import base option gmap strings pretty.
Import ListNotations.
Open Scope Z_scope.

(** ** Errors *)

(** The dynamic types of [error] values that reach the reconciler. *)
Inductive error : Type :=
| GoogleapiError (Code : Z) (Message : string) (* *googleapi.Error *)
| ErrorString (s : string)                     (* fmt.Errorf, errors.New *)
| ErrWaitTimeout                               (* wait.ErrWaitTimeout *)
| MachineError (Reason Message : string).      (* *apierrors.MachineError *)

(** The [Error()] method; for a [*googleapi.Error], the text of an error
    that has a message and no list of items. *)
Definition Error (e : error) : string :=
  match e with
  | GoogleapiError c m => "googleapi: Error " +:+ pretty c +:+ ": " +:+ m
  | ErrorString s => s
  | ErrWaitTimeout => "timed out waiting for the condition"
  | MachineError _ m => m
  end.

Definition isNotFoundError (err : error) : bool :=
  match err with
  | GoogleapiError Code _ => Code =? 404
  | _ => false
  end.

(** [apierrors.InvalidMachineConfiguration]. *)
Definition InvalidConfigurationMachineError : string := "InvalidConfiguration".

Definition InvalidMachineConfiguration (msg : string) : error :=
  MachineError InvalidConfigurationMachineError msg.

(** ** [encoding/base64]: [StdEncoding.EncodeToString] *)

Module base64.

Definition encodeStd : string :=
  "ABCDEFGHIJKLMNOPQRSTUVWXYZabcdefghijklmnopqrstuvwxyz0123456789+/".

Definition sextet (val : Z) (shift : Z) : ascii :=
  match String.get (Z.to_nat (Z.land (Z.shiftr val shift) 63)) encodeStd with
  | Some c => c
  | None => "="%char
  end.

Definition b2z (b : byte) : Z := Z.of_N (Byte.to_N b).

Fixpoint EncodeToString (src : list byte) : string :=
  match src with
  | [] => ""
  | [a] =>
      let val := Z.shiftl (b2z a) 16 in
      String (sextet val 18) (String (sextet val 12) "==")
  | [a; b] =>
      let val := Z.lor (Z.shiftl (b2z a) 16) (Z.shiftl (b2z b) 8) in
      String (sextet val 18) (String (sextet val 12)
        (String (sextet val 6) "="))
  | a :: b :: c :: rest =>
      let val := Z.lor (Z.lor (Z.shiftl (b2z a) 16) (Z.shiftl (b2z b) 8))
                       (b2z c) in
      String (sextet val 18) (String (sextet val 12)
        (String (sextet val 6) (String (sextet val 0)
          (EncodeToString rest))))
  end.

End base64.

(** ** Data model *)

(** *** [k8s.io/api/core/v1] *)

(** [NodeAddressType] is a string type. *)
Definition NodeAddressType : Type := string.
Definition NodeInternalIP : NodeAddressType := "InternalIP".
Definition NodeExternalIP : NodeAddressType := "ExternalIP".

Record NodeAddress : Type := {
  Type_ : NodeAddressType;
  Address : string
}.

Definition EventTypeNormal : string := "Normal".
Definition EventTypeWarning : string := "Warning".

Record LocalObjectReference : Type := { LocalObjectReference_Name : string }.

Record Secret : Type := { Data : gmap string (list byte) }.

(** *** The provider spec and status ([gcpprovider/v1beta1]) *)

Record GCPDisk : Type := {
  GCPDisk_AutoDelete : bool;
  GCPDisk_Boot : bool;
  GCPDisk_SizeGb : Z;
  GCPDisk_Type : string;
  GCPDisk_Image : string;
  GCPDisk_Labels : gmap string string
}.

Record GCPNetworkInterface : Type := {
  GCPNetworkInterface_Network : string;
  GCPNetworkInterface_Subnetwork : string
}.

Record GCPServiceAccount : Type := {
  GCPServiceAccount_Email : string;
  GCPServiceAccount_Scopes : list string
}.

Record GCPMetadata : Type := {
  GCPMetadata_Key : string;
  GCPMetadata_Value : option string
}.

Record GCPMachineProviderSpec : Type := {
  UserDataSecret : option LocalObjectReference;
  CanIPForward : bool;
  DeletionProtection : bool;
  Disks : list GCPDisk;
  Labels : gmap string string;
  Metadata : list GCPMetadata;
  NetworkInterfaces : list GCPNetworkInterface;
  ServiceAccounts : list GCPServiceAccount;
  Tags : list string;
  MachineType : string;
  Region : string;
  Zone : string
}.

Record GCPMachineProviderStatus : Type := {
  InstanceID : option string;
  InstanceState : option string
}.

(** *** The machine resource ([machine/v1beta1]) *)

Record ObjectMeta : Type := { Name : string; Namespace : string }.

Record MachineSpec : Type := { ProviderID : option string }.

Record MachineStatus : Type := { Addresses : list NodeAddress }.

Record Machine : Type := {
  Meta : ObjectMeta;
  Spec : MachineSpec;
  Status : MachineStatus
}.

(** *** [google.golang.org/api/compute/v1]: the fields the reconciler
    reads or writes. *)

Module compute.

Record AccessConfig : Type := {
  AccessConfig_Name : string;
  AccessConfig_NatIP : string;
  AccessConfig_Type : string
}.

Record NetworkInterface : Type := {
  AccessConfigs : list AccessConfig;
  Network : string;
  NetworkIP : string;
  Subnetwork : string
}.

Record AttachedDiskInitializeParams : Type := {
  DiskSizeGb : Z;
  DiskType : string;
  InitializeParams_Labels : gmap string string;
  SourceImage : string
}.

Record AttachedDisk : Type := {
  AutoDelete : bool;
  Boot : bool;
  InitializeParams : option AttachedDiskInitializeParams
}.

Record ServiceAccount : Type := {
  Email : string;
  Scopes : list string
}.

Record MetadataItems : Type := {
  Key : string;
  Value : option string
}.

Record Metadata : Type := { Metadata_Items : list MetadataItems }.

Record Tags : Type := { Tags_Items : list string }.

Record Instance : Type := {
  CanIpForward : bool;
  Instance_DeletionProtection : bool;
  Instance_Disks : list AttachedDisk;
  Instance_Labels : gmap string string;
  Instance_MachineType : string;
  Instance_Metadata : option Metadata;
  Instance_Name : string;
  Instance_NetworkInterfaces : list NetworkInterface;
  Instance_ServiceAccounts : list ServiceAccount;
  Instance_Status : string;
  Instance_Tags : option Tags
}.

Record OperationErrorErrors : Type := {
  Code : string;
  Location : string;
  Message : string
}.

Record OperationError : Type := { Errors : list OperationErrorErrors }.

Record Operation : Type := {
  Operation_Error : option OperationError;
  Operation_Name : string;
  OperationType : string;
  Operation_Status : string
}.

(** The zero value of [AccessConfig], written [{}] in [create]: no
    address is requested, the provider assigns an ephemeral one. *)
Definition zeroAccessConfig : AccessConfig :=
  {| AccessConfig_Name := ""; AccessConfig_NatIP := "";
     AccessConfig_Type := "" |}.

Record Zone : Type := { Zone_Name : string }.

End compute.

(** ** The collaborators *)

(** A call made to the compute service. *)
Inductive Call : Type :=
| CallInstancesInsert (project zone : string) (instance : compute.Instance)
| CallInstancesGet (project zone name : string)
| CallInstancesDelete (project zone name : string)
| CallZonesGet (project zone : string)
| CallZoneOperationsGet (project zone operation : string).

(** The compute service interface.  The service is remote and its
    replies may change from one call to the next: every method receives
    the calls made so far, oldest first. *)
Record GCPComputeService : Type := {
  InstancesInsert :
    list Call -> string -> string -> compute.Instance ->
    compute.Operation + error;
  InstancesGet :
    list Call -> string -> string -> string -> compute.Instance + error;
  InstancesDelete :
    list Call -> string -> string -> string -> compute.Operation + error;
  ZonesGet : list Call -> string -> string -> compute.Zone + error;
  ZoneOperationsGet :
    list Call -> string -> string -> string -> compute.Operation + error
}.

(** The controller-runtime client, used for [Get] on secrets only:
    namespace and name to the secret or an error. *)
Record Client : Type := {
  Get : string -> string -> Secret + error
}.

(** An event handed to the recorder. *)
Record Event : Type := {
  eventtype : string;
  reason : string;
  message : string
}.

(** ** The scope and the state of one invocation *)

Record machineScope : Type := {
  machine : Machine;
  providerSpec : GCPMachineProviderSpec;
  providerStatus : GCPMachineProviderStatus;
  projectID : string;
  providerID : string
}.

(** The reconciler (its scope and what its recorder received) and the
    world around it: the calls the compute service has seen, the seconds
    spent sleeping, and how the scheduler settles the one race of a
    poll: [lastTick] tells whether the tick of the ticker that falls on
    the deadline reaches the poller before the timer closes the
    channel. *)
Record State : Type := {
  scope : machineScope;
  events : list Event;
  calls : list Call;
  clock : Z;
  lastTick : bool
}.

(** The status a scope persists when it is closed. *)
Record PersistedStatus : Type := {
  status_addresses : list NodeAddress;
  status_providerID : option string;
  status_providerStatus : GCPMachineProviderStatus
}.

Definition persisted (s : State) : PersistedStatus :=
  {| status_addresses := Addresses (Status (machine (scope s)));
     status_providerID := ProviderID (Spec (machine (scope s)));
     status_providerStatus := providerStatus (scope s) |}.

(** ** The state monad *)

Definition M (S A : Type) : Type := S -> A * S.

Definition ret {S A : Type} (a : A) : M S A := fun s => (a, s).

Definition bind {S A B : Type} (m : M S A) (f : A -> M S B) : M S B :=
  fun s => let (a, s') := m s in f a s'.

Declare Scope go_scope.
Delimit Scope go_scope with go.
Notation "x <- c1 ;; c2" := (bind c1 (fun x => c2))
  (at level 100, c1 at next level, right associativity) : go_scope.
Notation "c1 ;; c2" := (bind c1 (fun _ => c2))
  (at level 100, right associativity) : go_scope.
Open Scope go_scope.

Definition gets {S A : Type} (f : S -> A) : M S A := fun s => (f s, s).
Definition modify {S : Type} (f : S -> S) : M S unit := fun s => (tt, f s).

(** States in which time passes. *)
Class Timed (S : Type) : Type := tick : Z -> S -> S.

(** States that settle the race between the last tick and the timer. *)
Class Raced (S : Type) : Type := tickWins : S -> bool.

(** *** State updates *)

Definition logCall (c : Call) (s : State) : State :=
  {| scope := scope s; events := events s;
     calls := calls s ++ [c]; clock := clock s;
     lastTick := lastTick s |}.

Definition logEvent (e : Event) (s : State) : State :=
  {| scope := scope s; events := events s ++ [e];
     calls := calls s; clock := clock s; lastTick := lastTick s |}.

Definition setScope (sc : machineScope) (s : State) : State :=
  {| scope := sc; events := events s; calls := calls s; clock := clock s;
     lastTick := lastTick s |}.

#[global] Instance State_Timed : Timed State := fun d s =>
  {| scope := scope s; events := events s;
     calls := calls s; clock := clock s + d; lastTick := lastTick s |}.

#[global] Instance pair_Timed {V : Type} : Timed (State * V) := fun d sv =>
  (tick d (fst sv), snd sv).

#[global] Instance State_Raced : Raced State := lastTick.

#[global] Instance pair_Raced {V : Type} : Raced (State * V) := fun sv =>
  tickWins (fst sv).

(** [eventRecorder.Eventf]. *)
Definition Eventf (eventtype reason message : string) : M State unit :=
  modify (logEvent {| eventtype := eventtype; reason := reason;
                      message := message |}).

(** ** [k8s.io/apimachinery/pkg/util/wait]: [Poll]

    [Poll] hands the condition to [WaitFor] with a channel fed by a
    ticker and closed by a timer.  [WaitFor] receives from the channel
    and runs the condition, once for every tick that is delivered and
    once more when it finds the channel closed; it returns the
    condition's error, nil when the condition is true, and the timeout
    error when the condition is still false on the closed channel.

    The clock here is logical: it advances by waiting only, a run of
    the condition takes no time, so no tick is dropped for a busy
    poller.  The ticks fall on the multiples of [interval]; the timer
    fires at [timeout], which is positive.  A tick that falls on the
    deadline is ready together with the timer, and [select] picks
    either: the state settles that race. *)

Definition ConditionFunc (S : Type) : Type := M S (bool * option error).

(** [WaitFor]: a run after each of [ticks] ticks, [interval] apart, and
    a last run on the closed channel, [rest] after the last tick. *)
Fixpoint pollLoop {S : Type} `{Timed S} (ticks : nat) (interval rest : Z)
    (condition : ConditionFunc S) : M S (option error) :=
  match ticks with
  | O =>
      modify (tick rest) ;;
      r <- condition ;;
      match r with
      | (_, Some err) => ret (Some err)
      | (true, None) => ret None
      | (false, None) => ret (Some ErrWaitTimeout)
      end
  | Datatypes.S ticks' =>
      modify (tick interval) ;;
      r <- condition ;;
      match r with
      | (_, Some err) => ret (Some err)
      | (true, None) => ret None
      | (false, None) => pollLoop ticks' interval rest condition
      end
  end.

(** The ticks of the ticker up to the deadline. *)
Definition pollRuns (interval timeout : Z) : nat :=
  Z.to_nat (timeout / interval).

(** The ticks that are delivered: all that fall before the deadline,
    and the one that falls on it when it wins the race. *)
Definition deliveredTicks (interval timeout : Z) (wins : bool) : nat :=
  if (timeout mod interval =? 0) && negb wins
  then Nat.pred (pollRuns interval timeout)
  else pollRuns interval timeout.

Definition Poll {S : Type} `{Timed S} `{Raced S} (interval timeout : Z)
    (condition : ConditionFunc S) : M S (option error) :=
  fun s =>
    let ticks := deliveredTicks interval timeout (tickWins s) in
    pollLoop ticks interval (timeout - interval * Z.of_nat ticks)
      condition s.

(** ** Constants of the reconciler (durations in seconds) *)

Definition userDataSecretKey : string := "userData".
Definition operationTimeOut : Z := 180.
Definition operationRetryWait : Z := 5.
Definition createEventAction : string := "Create".
Definition updateEventAction : string := "Update".
Definition deleteEventAction : string := "Delete".
Definition noEventAction : string := "".

(** ** Formatting *)

(** [%q] of a string (without escapes). *)
Definition dquote : string := String (ascii_of_nat 34) EmptyString.
Definition quote (s : string) : string := dquote +:+ s +:+ dquote.

Fixpoint join (sep : string) (l : list string) : string :=
  match l with
  | [] => ""
  | [x] => x
  | x :: rest => x +:+ sep +:+ join sep rest
  end.

(** [%s] of a [compute.OperationErrorErrors] value: the fields between
    braces, the two empty bookkeeping slices last. *)
Definition fmtOperationErrorErrors (e : compute.OperationErrorErrors)
  : string :=
  "{" +:+ compute.Code e +:+ " " +:+ compute.Location e +:+ " "
      +:+ compute.Message e +:+ " [] []}".

(** [%+v] of an [[]error]. *)
Definition fmtErrors (errs : list error) : string :=
  "[" +:+ join " " (map Error errs) +:+ "]".

(** [%v] of a [*compute.Operation], abbreviated to its name, type and
    status. *)
Definition fmtOperation (op : option compute.Operation) : string :=
  match op with
  | None => "<nil>"
  | Some o => "&{" +:+ compute.Operation_Name o +:+ " "
                   +:+ compute.OperationType o +:+ " "
                   +:+ compute.Operation_Status o +:+ "}"
  end.

(** ** The reconciler *)

Definition validateMachine (machine : Machine)
    (providerSpec : GCPMachineProviderSpec) : option error :=
  None.

Section Reconciler.

Variable computeService : GCPComputeService.
Variable coreClient : Client.

(** *** Calls to the compute service, logged *)

Definition callInstancesInsert (project zone : string)
    (instance : compute.Instance) : M State (compute.Operation + error) :=
  fun s => (InstancesInsert computeService (calls s) project zone instance,
            logCall (CallInstancesInsert project zone instance) s).

Definition callInstancesGet (project zone name : string)
  : M State (compute.Instance + error) :=
  fun s => (InstancesGet computeService (calls s) project zone name,
            logCall (CallInstancesGet project zone name) s).

Definition callInstancesDelete (project zone name : string)
  : M State (compute.Operation + error) :=
  fun s => (InstancesDelete computeService (calls s) project zone name,
            logCall (CallInstancesDelete project zone name) s).

Definition callZonesGet (project zone : string)
  : M State (compute.Zone + error) :=
  fun s => (ZonesGet computeService (calls s) project zone,
            logCall (CallZonesGet project zone) s).

Definition callZoneOperationsGet (project zone operation : string)
  : M State (compute.Operation + error) :=
  fun s => (ZoneOperationsGet computeService (calls s) project zone
              operation,
            logCall (CallZoneOperationsGet project zone operation) s).

(** *** [handleMachineError] *)

Definition handleMachineError (Reason Message : string)
    (eventAction : string) : M State (option error) :=
  (if String.eqb eventAction noEventAction then ret tt
   else Eventf EventTypeWarning ("Failed" +:+ eventAction) Reason) ;;
  ret (Some (MachineError Reason Message)).

(** *** [reconcileMachineWithCloudState] *)

Definition nodeAddressesOf (networkInterface : compute.NetworkInterface)
  : list NodeAddress :=
  {| Type_ := NodeInternalIP;
     Address := compute.NetworkIP networkInterface |}
  :: map (fun config =>
            {| Type_ := NodeExternalIP;
               Address := compute.AccessConfig_NatIP config |})
         (compute.AccessConfigs networkInterface).

(** The four assignments that end the function. *)
Definition writeStatus (nodeAddresses : list NodeAddress)
    (freshInstance : compute.Instance) (r : machineScope) : machineScope :=
  {| machine :=
       {| Meta := Meta (machine r);
          Spec := {| ProviderID := Some (providerID r) |};
          Status := {| Addresses := nodeAddresses |} |};
     providerSpec := providerSpec r;
     providerStatus :=
       {| InstanceID := Some (compute.Instance_Name freshInstance);
          InstanceState := Some (compute.Instance_Status freshInstance) |};
     projectID := projectID r;
     providerID := providerID r |}.

Definition reconcileMachineWithCloudState : M State (option error) :=
  r <- gets scope ;;
  res <- callInstancesGet (projectID r) (Zone (providerSpec r))
           (Name (Meta (machine r))) ;;
  match res with
  | inr err =>
      ret (Some (ErrorString
        ("failed to get instance via compute service: " +:+ Error err)))
  | inl freshInstance =>
      match compute.Instance_NetworkInterfaces freshInstance with
      | [] =>
          ret (Some (ErrorString
            ("could not find network interfaces for instance "
             +:+ quote (compute.Instance_Name freshInstance))))
      | networkInterface :: _ =>
          modify (setScope
            (writeStatus (nodeAddressesOf networkInterface) freshInstance r)) ;;
          ret None
      end
  end.

Definition update : M State (option error) :=
  reconcileMachineWithCloudState.

(** *** [getCustomUserData] *)

Definition getCustomUserData (r : machineScope) : string * option error :=
  match UserDataSecret (providerSpec r) with
  | None => ("", None)
  | Some ref =>
      let namespace := Namespace (Meta (machine r)) in
      let name := LocalObjectReference_Name ref in
      match Get coreClient namespace name with
      | inr err =>
          ("", Some (ErrorString
             ("error getting user data secret " +:+ quote name
              +:+ " in namespace " +:+ quote namespace +:+ ": "
              +:+ Error err)))
      | inl userDataSecret =>
          match Data userDataSecret !! userDataSecretKey with
          | None =>
              ("", Some (ErrorString
                 ("secret " +:+ namespace +:+ "/" +:+ name
                  +:+ " does not have " +:+ quote userDataSecretKey
                  +:+ " field set. Thus, no user data applied when creating an instance")))
          | Some data => (base64.EncodeToString data, None)
          end
      end
  end.

(** *** [waitUntilOperationCompleted] *)

(** The function literal handed to [Poll].  It assigns the variable
    [op] of the enclosing function, the second component of the
    state. *)
Definition operationCondition (project zone operationName : string)
  : ConditionFunc (State * option compute.Operation) :=
  fun sv =>
    let (res, s') :=
      callZoneOperationsGet project zone operationName (fst sv) in
    match res with
    | inr err => ((false, Some err), (s', None))
    | inl op =>
        if String.eqb (compute.Operation_Status op) "DONE" then
          match compute.Operation_Error op with
          | None => ((true, None), (s', Some op))
          | Some opError =>
              let err :=
                map (fun opErr =>
                       ErrorString (fmtOperationErrorErrors opErr))
                    (compute.Errors opError) in
              ((false,
                Some (ErrorString
                  ("the following errors occurred: " +:+ fmtErrors err))),
               (s', Some op))
          end
        else ((false, None), (s', Some op))
    end.

(** The operation returned is the one last fetched. *)
Definition waitUntilOperationCompleted (zone operationName : string)
  : M State (option compute.Operation * option error) :=
  fun s =>
    let (err, sv) :=
      Poll operationRetryWait operationTimeOut
        (operationCondition (projectID (scope s)) zone operationName)
        (s, None) in
    ((snd sv, err), fst sv).

(** *** [exists] and [validateZone] *)

Definition validateZone : M State (option error) :=
  r <- gets scope ;;
  res <- callZonesGet (projectID r) (Zone (providerSpec r)) ;;
  match res with
  | inl _ => ret None
  | inr err => ret (Some err)
  end.

Definition exists_ : M State (bool * option error) :=
  r <- gets scope ;;
  match validateMachine (machine r) (providerSpec r) with
  | Some err =>
      ret (false, Some (ErrorString
        ("failed validating machine provider spec: " +:+ Error err)))
  | None =>
      let zone := Zone (providerSpec r) in
      verr <- validateZone ;;
      match verr with
      | Some err =>
          ret (false, Some (ErrorString
            ("unable to verify project/zone exists: " +:+ projectID r
             +:+ "/" +:+ zone +:+ "; err: " +:+ Error err)))
      | None =>
          res <- callInstancesGet (projectID r) zone
                   (Name (Meta (machine r))) ;;
          match res with
          | inl _ => ret (true, None)
          | inr err =>
              if isNotFoundError err then ret (false, None)
              else ret (false, Some (ErrorString
                     ("error getting running instances: " +:+ Error err)))
          end
      end
  end.

(** *** [delete] *)

Definition delete : M State (option error) :=
  r <- gets scope ;;
  ex <- exists_ ;;
  match ex with
  | (_, Some err) => ret (Some err)
  | (false, None) => ret None
  | (true, None) =>
      let zone := Zone (providerSpec r) in
      res <- callInstancesDelete (projectID r) zone
               (Name (Meta (machine r))) ;;
      match res with
      | inr err =>
          ret (Some (ErrorString
            ("failed to delete instance via compute service: "
             +:+ Error err)))
      | inl operation =>
          w <- waitUntilOperationCompleted zone
                 (compute.Operation_Name operation) ;;
          match w with
          | (op, Some err) =>
              ret (Some (ErrorString
                ("failed to wait for delete operation via compute service. Operation status: "
                 +:+ fmtOperation op +:+ ". Error: " +:+ Error err)))
          | (_, None) => ret None
          end
      end
  end.

(** *** [create] *)

(** The instance descriptor [create] assembles, section by section. *)

Definition disksOf (zone : string) (ps : GCPMachineProviderSpec)
  : list compute.AttachedDisk :=
  map (fun disk =>
         {| compute.AutoDelete := GCPDisk_AutoDelete disk;
            compute.Boot := GCPDisk_Boot disk;
            compute.InitializeParams := Some
              {| compute.DiskSizeGb := GCPDisk_SizeGb disk;
                 compute.DiskType :=
                   "zones/" +:+ zone +:+ "/diskTypes/"
                   +:+ GCPDisk_Type disk;
                 compute.InitializeParams_Labels := GCPDisk_Labels disk;
                 compute.SourceImage := GCPDisk_Image disk |} |})
      (Disks ps).

Definition networkInterfacesOf (r : machineScope)
  : list compute.NetworkInterface :=
  map (fun nic =>
         {| compute.AccessConfigs := [compute.zeroAccessConfig];
            compute.Network :=
              if (String.length (GCPNetworkInterface_Network nic) =? 0)%nat
              then ""
              else "projects/" +:+ projectID r +:+ "/global/networks/"
                   +:+ GCPNetworkInterface_Network nic;
            compute.NetworkIP := "";
            compute.Subnetwork :=
              if (String.length (GCPNetworkInterface_Subnetwork nic)
                  =? 0)%nat
              then ""
              else "regions/" +:+ Region (providerSpec r)
                   +:+ "/subnetworks/"
                   +:+ GCPNetworkInterface_Subnetwork nic |})
      (NetworkInterfaces (providerSpec r)).

Definition serviceAccountsOf (ps : GCPMachineProviderSpec)
  : list compute.ServiceAccount :=
  map (fun sa =>
         {| compute.Email := GCPServiceAccount_Email sa;
            compute.Scopes := GCPServiceAccount_Scopes sa |})
      (ServiceAccounts ps).

Definition metadataItemsOf (userData : string)
    (ps : GCPMachineProviderSpec) : list compute.MetadataItems :=
  {| compute.Key := "user-data"; compute.Value := Some userData |}
  :: map (fun metadata =>
            {| compute.Key := GCPMetadata_Key metadata;
               compute.Value := GCPMetadata_Value metadata |})
         (Metadata ps).

Definition instanceOf (r : machineScope) (userData : string)
  : compute.Instance :=
  let zone := Zone (providerSpec r) in
  {| compute.CanIpForward := CanIPForward (providerSpec r);
     compute.Instance_DeletionProtection :=
       DeletionProtection (providerSpec r);
     compute.Instance_Disks := disksOf zone (providerSpec r);
     compute.Instance_Labels := Labels (providerSpec r);
     compute.Instance_MachineType :=
       "zones/" +:+ zone +:+ "/machineTypes/"
       +:+ MachineType (providerSpec r);
     compute.Instance_Metadata := Some
       {| compute.Metadata_Items :=
            metadataItemsOf userData (providerSpec r) |};
     compute.Instance_Name := Name (Meta (machine r));
     compute.Instance_NetworkInterfaces := networkInterfacesOf r;
     compute.Instance_ServiceAccounts :=
       serviceAccountsOf (providerSpec r);
     compute.Instance_Status := "";
     compute.Instance_Tags := Some
       {| compute.Tags_Items := Tags (providerSpec r) |} |}.

(** The body of [create], up to its [return]. *)
Definition createBody : M State (option error) :=
  r <- gets scope ;;
  match validateMachine (machine r) (providerSpec r) with
  | Some err =>
      handleMachineError InvalidConfigurationMachineError
        ("error decoding MachineProviderConfig: " +:+ Error err)
        createEventAction
  | None =>
      let zone := Zone (providerSpec r) in
      match getCustomUserData r with
      | (_, Some err) =>
          ret (Some (ErrorString
            ("error getting custom user data: " +:+ Error err)))
      | (userData, None) =>
          let instance := instanceOf r userData in
          res <- callInstancesInsert (projectID r) zone instance ;;
          match res with
          | inr err =>
              ret (Some (ErrorString
                ("failed to create instance via compute service: "
                 +:+ Error err)))
          | inl operation =>
              w <- waitUntilOperationCompleted zone
                     (compute.Operation_Name operation) ;;
              match w with
              | (op, Some err) =>
                  ret (Some (ErrorString
                    ("failed to wait for create operation via compute service. Operation status: "
                     +:+ fmtOperation op +:+ ". Error: " +:+ Error err)))
              | (_, None) =>
                  Eventf EventTypeNormal "Created"
                    ("Created Machine " +:+ Name (Meta (machine r))) ;;
                  ret None
              end
          end
      end
  end.

(** [defer r.reconcileMachineWithCloudState()] runs when the body has
    returned; what the deferred call returns is dropped. *)
Definition create : M State (option error) :=
  err <- createBody ;;
  reconcileMachineWithCloudState ;;
  ret err.

End Reconciler.

(** ** Vocabulary of the properties *)

(** The calls made between two states. *)
Definition callsSince (s s' : State) : list Call :=
  drop (length (calls s)) (calls s').

Definition isInstancesDelete (c : Call) : bool :=
  match c with CallInstancesDelete _ _ _ => true | _ => false end.

Definition isInstancesInsert (c : Call) : bool :=
  match c with CallInstancesInsert _ _ _ => true | _ => false end.

(** The target of the scope, as every call names it. *)
Definition targetGet (s : State) : Call :=
  CallInstancesGet (projectID (scope s)) (Zone (providerSpec (scope s)))
    (Name (Meta (machine (scope s)))).

Definition targetDelete (s : State) : Call :=
  CallInstancesDelete (projectID (scope s)) (Zone (providerSpec (scope s)))
    (Name (Meta (machine (scope s)))).

Definition targetZone (s : State) : Call :=
  CallZonesGet (projectID (scope s)) (Zone (providerSpec (scope s))).

(** What [InstancesGet] replies for the target after the calls [log]. *)
Definition instanceReply (cs : GCPComputeService) (s : State)
    (log : list Call) : compute.Instance + error :=
  InstancesGet cs log (projectID (scope s)) (Zone (providerSpec (scope s)))
    (Name (Meta (machine (scope s)))).

Definition zoneReply (cs : GCPComputeService) (s : State)
  : compute.Zone + error :=
  ZonesGet cs (calls s) (projectID (scope s)) (Zone (providerSpec (scope s))).

(** *** The poller's view of an operation *)

Definition fetchCall (s : State) (zone operationName : string) : Call :=
  CallZoneOperationsGet (projectID (scope s)) zone operationName.

(** The reply to the fetch number [k] (from 0) of a poll that starts in
    [s]. *)
Definition fetchReply (cs : GCPComputeService) (s : State)
    (zone operationName : string) (k : nat) : compute.Operation + error :=
  ZoneOperationsGet cs
    (calls s ++ repeat (fetchCall s zone operationName) k)
    (projectID (scope s)) zone operationName.

(** The state after [k] fetches: [k] calls logged, [k] intervals slept. *)
Definition fetched (s : State) (zone operationName : string) (k : nat)
  : State :=
  {| scope := scope s; events := events s;
     calls := calls s ++ repeat (fetchCall s zone operationName) k;
     clock := clock s + operationRetryWait * Z.of_nat k;
     lastTick := lastTick s |}.

Definition terminal (op : compute.Operation) : bool :=
  String.eqb (compute.Operation_Status op) "DONE".

(** A reply that makes the poller continue. *)
Definition pending (reply : compute.Operation + error) : bool :=
  match reply with
  | inl op => negb (terminal op)
  | inr _ => false
  end.

Definition replyOperation (reply : compute.Operation + error)
  : option compute.Operation :=
  match reply with
  | inl op => Some op
  | inr _ => None
  end.

(** [m] occurs in [s]. *)
Definition occursIn (m s : string) : Prop :=
  exists before after, s = before +:+ m +:+ after.

(** The status the projector writes for a fetched instance. *)
Definition projected (r : machineScope) (freshInstance : compute.Instance)
    (networkInterface : compute.NetworkInterface) : PersistedStatus :=
  {| status_addresses :=
       {| Type_ := NodeInternalIP;
          Address := compute.NetworkIP networkInterface |}
       :: map (fun config =>
                 {| Type_ := NodeExternalIP;
                    Address := compute.AccessConfig_NatIP config |})
              (compute.AccessConfigs networkInterface);
     status_providerID := Some (providerID r);
     status_providerStatus :=
       {| InstanceID := Some (compute.Instance_Name freshInstance);
          InstanceState := Some (compute.Instance_Status freshInstance) |} |}.

(** ** Fixtures: the scope and the mock service of the package's tests *)

Module Fixture.

Definition operation (status : string) : compute.Operation :=
  {| compute.Operation_Error := None;
     compute.Operation_Name := "operation-1";
     compute.OperationType := "insert";
     compute.Operation_Status := status |}.

Definition failedOperation : compute.Operation :=
  {| compute.Operation_Error := Some
       {| compute.Errors :=
            [ {| compute.Code := "QUOTA_EXCEEDED";
                 compute.Location := "";
                 compute.Message := "Quota CPUS exceeded" |} ] |};
     compute.Operation_Name := "operation-1";
     compute.OperationType := "insert";
     compute.Operation_Status := "DONE" |}.

Definition instance : compute.Instance :=
  {| compute.CanIpForward := false;
     compute.Instance_DeletionProtection := false;
     compute.Instance_Disks := [];
     compute.Instance_Labels := ∅;
     compute.Instance_MachineType := "";
     compute.Instance_Metadata := None;
     compute.Instance_Name := "testInstance";
     compute.Instance_NetworkInterfaces :=
       [ {| compute.AccessConfigs :=
              [ {| compute.AccessConfig_Name := "";
                   compute.AccessConfig_NatIP := "35.243.147.143";
                   compute.AccessConfig_Type := "" |} ];
            compute.Network := "";
            compute.NetworkIP := "10.0.0.15";
            compute.Subnetwork := "" |} ];
     compute.Instance_ServiceAccounts := [];
     compute.Instance_Status := "RUNNING";
     compute.Instance_Tags := None |}.

(** Every call succeeds; an operation is done after [n] pending
    fetches. *)
Definition service (n : nat) : GCPComputeService :=
  {| InstancesInsert := fun _ _ _ _ => inl (operation "PENDING");
     InstancesGet := fun _ _ _ _ => inl instance;
     InstancesDelete := fun _ _ _ _ => inl (operation "PENDING");
     ZonesGet := fun _ _ zone => inl {| compute.Zone_Name := zone |};
     ZoneOperationsGet := fun log _ _ _ =>
       if (n <=? length (List.filter (fun c =>
                  match c with
                  | CallZoneOperationsGet _ _ _ => true
                  | _ => false
                  end) log))%nat
       then inl (operation "DONE") else inl (operation "RUNNING") |}.

(** The service [cs] with another reply to [InstancesGet]. *)
Definition withInstancesGet (reply : compute.Instance + error)
    (cs : GCPComputeService) : GCPComputeService :=
  {| InstancesInsert := InstancesInsert cs;
     InstancesGet := fun _ _ _ _ => reply;
     InstancesDelete := InstancesDelete cs;
     ZonesGet := ZonesGet cs;
     ZoneOperationsGet := ZoneOperationsGet cs |}.

(** The service [cs] with another reply to [ZoneOperationsGet]. *)
Definition withZoneOperationsGet (reply : compute.Operation + error)
    (cs : GCPComputeService) : GCPComputeService :=
  {| InstancesInsert := InstancesInsert cs;
     InstancesGet := InstancesGet cs;
     InstancesDelete := InstancesDelete cs;
     ZonesGet := ZonesGet cs;
     ZoneOperationsGet := fun _ _ _ _ => reply |}.

(** The service [cs] with another reply to [ZonesGet]. *)
Definition withZonesGet (reply : compute.Zone + error)
    (cs : GCPComputeService) : GCPComputeService :=
  {| InstancesInsert := InstancesInsert cs;
     InstancesGet := InstancesGet cs;
     InstancesDelete := InstancesDelete cs;
     ZonesGet := fun _ _ _ => reply;
     ZoneOperationsGet := ZoneOperationsGet cs |}.

Definition notFound : error := GoogleapiError 404 "notFound".

Definition absent : GCPComputeService :=
  withInstancesGet (inr notFound) (service 0).

Definition noSecrets : Client :=
  {| Get := fun _ _ => inr (ErrorString "secrets not found") |}.

Definition oneSecret : Client :=
  {| Get := fun _ _ =>
       inl {| Data := {[ userDataSecretKey := [x4d; x61; x6e]%byte ]} |} |}.

Definition bootDisk : GCPDisk :=
  {| GCPDisk_AutoDelete := true; GCPDisk_Boot := true;
     GCPDisk_SizeGb := 16; GCPDisk_Type := "pd-standard";
     GCPDisk_Image := "projects/coreos-cloud/global/images/coreos";
     GCPDisk_Labels := ∅ |}.

Definition dataDisk : GCPDisk :=
  {| GCPDisk_AutoDelete := false; GCPDisk_Boot := false;
     GCPDisk_SizeGb := 100; GCPDisk_Type := "pd-ssd";
     GCPDisk_Image := ""; GCPDisk_Labels := ∅ |}.

Definition networkInterface : GCPNetworkInterface :=
  {| GCPNetworkInterface_Network := "network";
     GCPNetworkInterface_Subnetwork := "worker-subnet" |}.

Definition spec : GCPMachineProviderSpec :=
  {| UserDataSecret := None;
     CanIPForward := false;
     DeletionProtection := false;
     Disks := [bootDisk; dataDisk];
     Labels := ∅;
     Metadata := [];
     NetworkInterfaces := [networkInterface];
     ServiceAccounts := [];
     Tags := [];
     MachineType := "n1-standard-1";
     Region := "us-east1";
     Zone := "us-east1-b" |}.

Definition withSecret (ps : GCPMachineProviderSpec)
  : GCPMachineProviderSpec :=
  {| UserDataSecret := Some {| LocalObjectReference_Name := "user-data" |};
     CanIPForward := CanIPForward ps;
     DeletionProtection := DeletionProtection ps;
     Disks := Disks ps;
     Labels := Labels ps;
     Metadata := Metadata ps;
     NetworkInterfaces := NetworkInterfaces ps;
     ServiceAccounts := ServiceAccounts ps;
     Tags := Tags ps;
     MachineType := MachineType ps;
     Region := Region ps;
     Zone := Zone ps |}.

Definition scopeOf (ps : GCPMachineProviderSpec) : machineScope :=
  {| machine :=
       {| Meta := {| Name := "testInstance"; Namespace := "" |};
          Spec := {| ProviderID := None |};
          Status := {| Addresses := [] |} |};
     providerSpec := ps;
     providerStatus := {| InstanceID := None; InstanceState := None |};
     projectID := "testProject";
     providerID := "gce://testProject/us-east1-b/testInstance" |}.

Definition stateOf (ps : GCPMachineProviderSpec) : State :=
  {| scope := scopeOf ps; events := []; calls := []; clock := 0;
     lastTick := false |}.

Definition state : State := stateOf spec.

End Fixture.

(** ** The actuator

    The second part of the source: the four entry points the machine
    controller calls.  Each builds a scope for the machine and hands it
    to a reconciler. *)

(** [scopeFailFmt], applied to the machine's name and the error. *)
Definition scopeFailFmt (name : string) (err : error) : string :=
  "failed to create scope for machine " +:+ quote name +:+ ": "
  +:+ Error err.

Record machineScopeParams : Type := {
  params_coreClient : Client;
  params_machine : Machine
}.

(** What an actuator works on: what its event recorder received, the
    calls the compute service has seen, the seconds slept, the scopes
    that were closed, oldest first, and how the scheduler settles the
    race of a poll.  Closing a scope persists the machine spec and
    status it holds. *)
Record World : Type := {
  recorded : list Event;
  seen : list Call;
  elapsed : Z;
  closed : list machineScope;
  ticker : bool
}.

(** The reconciler's state for a scope in a world, and the world a
    reconciler leaves. *)
Definition enter (sc : machineScope) (w : World) : State :=
  {| scope := sc; events := recorded w; calls := seen w;
     clock := elapsed w; lastTick := ticker w |}.

Definition leave (s : State) (w : World) : World :=
  {| recorded := events s; seen := calls s; elapsed := clock s;
     closed := closed w; ticker := ticker w |}.

(** [scope.Close()]. *)
Definition Close (sc : machineScope) (w : World) : World :=
  {| recorded := recorded w; seen := seen w; elapsed := elapsed w;
     closed := closed w ++ [sc]; ticker := ticker w |}.

Module Actuator.

Section Actuator.

(** [newMachineScope] is declared outside the two source files at hand:
    it is a parameter here.  The scope it builds holds the compute
    service the reconciler will call. *)
Variable newMachineScope :
  machineScopeParams -> (machineScope * GCPComputeService) + error.

(** The actuator's [coreClient]. *)
Variable coreClient : Client.

Definition Create (machine : Machine) : M World (option error) :=
  fun w =>
    match newMachineScope {| params_coreClient := coreClient;
                             params_machine := machine |} with
    | inr err =>
        (Some (ErrorString (scopeFailFmt (Name (Meta machine)) err)), w)
    | inl (sc, computeService) =>
        let (result, s') := create computeService coreClient (enter sc w) in
        (result, Close (scope s') (leave s' w))
    end.

Definition Exists (machine : Machine) : M World (bool * option error) :=
  fun w =>
    match newMachineScope {| params_coreClient := coreClient;
                             params_machine := machine |} with
    | inr err =>
        ((false,
          Some (ErrorString (scopeFailFmt (Name (Meta machine)) err))), w)
    | inl (sc, computeService) =>
        let (result, s') := exists_ computeService (enter sc w) in
        (result, leave s' w)
    end.

Definition Update (machine : Machine) : M World (option error) :=
  fun w =>
    match newMachineScope {| params_coreClient := coreClient;
                             params_machine := machine |} with
    | inr err =>
        (Some (ErrorString
           ("failed to create scope for machine "
            +:+ quote (Name (Meta machine)) +:+ ": " +:+ Error err)), w)
    | inl (sc, computeService) =>
        let (result, s') := update computeService (enter sc w) in
        (result, Close (scope s') (leave s' w))
    end.

Definition Delete (machine : Machine) : M World (option error) :=
  fun w =>
    match newMachineScope {| params_coreClient := coreClient;
                             params_machine := machine |} with
    | inr err =>
        (Some (ErrorString (scopeFailFmt (Name (Meta machine)) err)), w)
    | inl (sc, computeService) =>
        let (result, s') := delete computeService (enter sc w) in
        (result, leave s' w)
    end.

End Actuator.

End Actuator.

(** ** More vocabulary *)

Definition isZoneOperationsGet (c : Call) : bool :=
  match c with CallZoneOperationsGet _ _ _ => true | _ => false end.

Definition isInstancesGet (c : Call) : bool :=
  match c with CallInstancesGet _ _ _ => true | _ => false end.

Definition isZonesGet (c : Call) : bool :=
  match c with CallZonesGet _ _ => true | _ => false end.

(** The call that submits the descriptor built with [userData]. *)
Definition targetInsert (s : State) (userData : string) : Call :=
  CallInstancesInsert (projectID (scope s)) (Zone (providerSpec (scope s)))
    (instanceOf (scope s) userData).

(** The event [create] records on success. *)
Definition createdEvent (s : State) : Event :=
  {| eventtype := EventTypeNormal; reason := "Created";
     message := "Created Machine " +:+ Name (Meta (machine (scope s))) |}.

(** The metadata items of an instance descriptor. *)
Definition itemsOf (instance : compute.Instance)
  : list compute.MetadataItems :=
  match compute.Instance_Metadata instance with
  | Some metadata => compute.Metadata_Items metadata
  | None => []
  end.

(** The runs of the condition a poll that starts in [s] makes at most:
    one for each delivered tick and the one on the closed channel. *)
Definition allowedRuns (s : State) : nat :=
  S (deliveredTicks operationRetryWait operationTimeOut (lastTick s)).

(** The state after [k] fetches of a poll: [k] calls logged, and as
    many intervals slept as fit before the deadline. *)
Definition polled (s : State) (zone operationName : string) (k : nat)
  : State :=
  {| scope := scope s; events := events s;
     calls := calls s ++ repeat (fetchCall s zone operationName) k;
     clock := clock s + Z.min (operationRetryWait * Z.of_nat k)
                          operationTimeOut;
     lastTick := lastTick s |}.

(** [result] keeps the text of [err]. *)
Definition keeps (err : error) (result : option error) : Prop :=
  exists msg, result = Some (ErrorString msg) /\ occursIn (Error err) msg.

(** An operation was polled to its terminal status: [result] and the
    state [s'] are what the replies to the fetches of the operation
    [operationName], from the state [s0] on, determine.  After [N]
    pending replies, within the fetches every schedule allows, the first
    reply that is not pending ends the poll after exactly [N + 1]
    fetches, 5 seconds apart: an error of the fetch and the errors of a
    failed operation are kept in [result], an operation that is done
    without error gives nil.  When every reply is pending, [result] is
    the timeout, after all the fetches the schedule allows. *)
Definition polledToTerminal (cs : GCPComputeService) (s0 : State)
    (zone operationName : string) (result : option error) (s' : State)
  : Prop :=
  let reply := fetchReply cs s0 zone operationName in
  (forall N,
     (N < pollRuns operationRetryWait operationTimeOut)%nat ->
     (forall i, (i < N)%nat -> pending (reply i) = true) ->
     pending (reply N) = false ->
     callsSince s0 s' = repeat (fetchCall s0 zone operationName) (S N)
     /\ clock s' = clock s0 + operationRetryWait * Z.of_nat (S N)
     /\ match reply N with
        | inr err => keeps err result
        | inl op =>
            match compute.Operation_Error op with
            | None => result = None
            | Some opError =>
                exists msg,
                  result = Some (ErrorString msg)
                  /\ forall e, In e (compute.Errors opError) ->
                               occursIn (compute.Message e) msg
            end
        end)
  /\ ((forall i, (i < allowedRuns s0)%nat -> pending (reply i) = true) ->
      keeps ErrWaitTimeout result
      /\ callsSince s0 s'
         = repeat (fetchCall s0 zone operationName) (allowedRuns s0)
      /\ clock s' = clock s0 + operationTimeOut).

(** More fixtures. *)
Module Fixture2.

(** The state in which the tick on the deadline wins the race. *)
Definition tickState : State :=
  {| scope := Fixture.scopeOf Fixture.spec; events := []; calls := [];
     clock := 0; lastTick := true |}.

(** The spec with the data disk first and the boot disk second. *)
Definition dataFirst : GCPMachineProviderSpec :=
  {| UserDataSecret := None;
     CanIPForward := false;
     DeletionProtection := false;
     Disks := [Fixture.dataDisk; Fixture.bootDisk];
     Labels := ∅;
     Metadata := [];
     NetworkInterfaces := [Fixture.networkInterface];
     ServiceAccounts := [];
     Tags := [];
     MachineType := "n1-standard-1";
     Region := "us-east1";
     Zone := "us-east1-b" |}.

(** The service [cs] with another reply to [InstancesInsert]. *)
Definition withInstancesInsert (reply : compute.Operation + error)
    (cs : GCPComputeService) : GCPComputeService :=
  {| InstancesInsert := fun _ _ _ _ => reply;
     InstancesGet := InstancesGet cs;
     InstancesDelete := InstancesDelete cs;
     ZonesGet := ZonesGet cs;
     ZoneOperationsGet := ZoneOperationsGet cs |}.

Definition quotaExceeded : error := GoogleapiError 403 "quotaExceeded".

(** A secret without the key [userData]. *)
Definition otherSecret : Client :=
  {| Get := fun _ _ =>
       inl {| Data := {[ "ignition" := [x4d; x61; x6e]%byte ]} |} |}.

Definition newMachineScope (params : machineScopeParams)
  : (machineScope * GCPComputeService) + error :=
  inl (Fixture.scopeOf Fixture.spec, Fixture.service 1).

Definition noMachineScope (params : machineScopeParams)
  : (machineScope * GCPComputeService) + error :=
  inr (ErrorString "failed to get machine config").

Definition machine : Machine :=
  {| Meta := {| Name := "testInstance"; Namespace := "" |};
     Spec := {| ProviderID := None |};
     Status := {| Addresses := [] |} |}.

Definition world : World :=
  {| recorded := []; seen := []; elapsed := 0; closed := [];
     ticker := false |}.

End Fixture2.

(** * Properties *)

(** ** Base64 on the standard test vectors *)

Example base64_Man :
  base64.EncodeToString [x4d; x61; x6e]%byte = "TWFu".
Proof. reflexivity. Qed.

Example base64_Ma : base64.EncodeToString [x4d; x61]%byte = "TWE=".
Proof. reflexivity. Qed.

Example base64_M : base64.EncodeToString [x4d]%byte = "TQ==".
Proof. reflexivity. Qed.

(** The test [TestReconcileMachineWithCloudState]. *)
Example test_reconcileMachineWithCloudState :
  let (err, s) :=
    reconcileMachineWithCloudState (Fixture.service 0) Fixture.state in
  err = None /\
  Addresses (Status (machine (scope s))) =
    [ {| Type_ := "InternalIP"; Address := "10.0.0.15" |};
      {| Type_ := "ExternalIP"; Address := "35.243.147.143" |} ] /\
  ProviderID (Spec (machine (scope s))) = Some (providerID (scope s)) /\
  InstanceState (providerStatus (scope s)) = Some "RUNNING" /\
  InstanceID (providerStatus (scope s)) = Some "testInstance".
Proof. vm_compute. repeat split. Qed.

(** ** The operation poller *)

Lemma fetched_0 (s : State) (zone operationName : string) :
  fetched s zone operationName 0 = s.
Proof.
  unfold fetched. destruct s as [sc ev cl ck lt]. simpl.
  rewrite app_nil_r. f_equal. lia.
Qed.

(** Either all of the first [n] replies are pending, or one of them is
    the first that is not. *)
Lemma first_decisive (pendingAt : nat -> bool) (n : nat) :
  (forall i, (i < n)%nat -> pendingAt i = true)
  \/ exists N, (N < n)%nat
               /\ (forall i, (i < N)%nat -> pendingAt i = true)
               /\ pendingAt N = false.
Proof.
  induction n as [| n [Hall | (N & HN & Hbefore & Hat)]].
  - left. intros i Hi. lia.
  - destruct (pendingAt n) eqn:Hn.
    + left. intros i Hi.
      destruct (Nat.eq_dec i n) as [-> | Hne]; [exact Hn |].
      apply Hall. lia.
    + right. exists n. split; [lia |]. split; [| exact Hn].
      intros i Hi. apply Hall. exact Hi.
  - right. exists N. split; [lia |]. split; assumption.
Qed.

Section Poller.

Variable cs : GCPComputeService.
Variable s : State.
Variables zone operationName : string.

Let condition : ConditionFunc (State * option compute.Operation) :=
  operationCondition cs (projectID (scope s)) zone operationName.

Let reply : nat -> compute.Operation + error :=
  fetchReply cs s zone operationName.

Let after : nat -> State := fetched s zone operationName.

Lemma fetched_S (k : nat) :
  logCall (fetchCall s zone operationName) (tick operationRetryWait (after k))
  = after (S k).
Proof.
  subst after. unfold fetched, logCall, tick, State_Timed. simpl calls.
  simpl clock. simpl scope. simpl events. simpl lastTick. f_equal.
  - rewrite <- app_assoc. f_equal. symmetry. apply repeat_cons.
  - lia.
Qed.

(** One run of the loop after a tick, from the state reached after [k]
    fetches. *)
Lemma pollLoop_step (ticks k : nat) (rest : Z)
    (v : option compute.Operation) :
  pollLoop (S ticks) operationRetryWait rest condition (after k, v) =
  match reply k with
  | inr err => (Some err, (after (S k), None))
  | inl op =>
      if terminal op then
        match compute.Operation_Error op with
        | None => (None, (after (S k), Some op))
        | Some opError =>
            (Some (ErrorString
               ("the following errors occurred: "
                +:+ fmtErrors
                      (map (fun opErr =>
                              ErrorString (fmtOperationErrorErrors opErr))
                           (compute.Errors opError)))),
             (after (S k), Some op))
        end
      else pollLoop ticks operationRetryWait rest condition
             (after (S k), Some op)
  end.
Proof.
  cbn [pollLoop]. unfold bind at 1. unfold modify at 1.
  unfold bind at 1. subst condition. unfold operationCondition at 1.
  unfold callZoneOperationsGet. cbn [fst snd tick pair_Timed].
  change (logCall (CallZoneOperationsGet (projectID (scope s)) zone
            operationName) (tick operationRetryWait (after k)))
    with (logCall (fetchCall s zone operationName)
            (tick operationRetryWait (after k))).
  rewrite fetched_S.
  change (ZoneOperationsGet cs (calls (tick operationRetryWait (after k)))
            (projectID (scope s)) zone operationName) with (reply k).
  destruct (reply k) as [op | err]; [| reflexivity].
  unfold terminal.
  destruct (String.eqb (compute.Operation_Status op) "DONE");
    [| reflexivity].
  destruct (compute.Operation_Error op); reflexivity.
Qed.

(** The run on the closed channel, [rest] after the last tick. *)
Lemma pollLoop_last (k : nat) (rest : Z) (v : option compute.Operation) :
  pollLoop 0 operationRetryWait rest condition (after k, v) =
  let s' := logCall (fetchCall s zone operationName) (tick rest (after k)) in
  match reply k with
  | inr err => (Some err, (s', None))
  | inl op =>
      if terminal op then
        match compute.Operation_Error op with
        | None => (None, (s', Some op))
        | Some opError =>
            (Some (ErrorString
               ("the following errors occurred: "
                +:+ fmtErrors
                      (map (fun opErr =>
                              ErrorString (fmtOperationErrorErrors opErr))
                           (compute.Errors opError)))),
             (s', Some op))
        end
      else (Some ErrWaitTimeout, (s', Some op))
  end.
Proof.
  cbn [pollLoop]. unfold bind at 1. unfold modify at 1.
  unfold bind at 1. subst condition. unfold operationCondition at 1.
  unfold callZoneOperationsGet. cbn [fst snd tick pair_Timed].
  change (logCall (CallZoneOperationsGet (projectID (scope s)) zone
            operationName) (tick rest (after k)))
    with (logCall (fetchCall s zone operationName) (tick rest (after k))).
  change (ZoneOperationsGet cs (calls (tick rest (after k)))
            (projectID (scope s)) zone operationName) with (reply k).
  cbv zeta.
  destruct (reply k) as [op | err]; [| reflexivity].
  unfold terminal.
  destruct (String.eqb (compute.Operation_Status op) "DONE");
    [| reflexivity].
  destruct (compute.Operation_Error op); reflexivity.
Qed.

(** Pending replies are skipped one by one. *)
Lemma pollLoop_pending (k : nat) :
  forall (ticks j : nat) (rest : Z) (v : option compute.Operation),
    (forall i, (i < k)%nat -> pending (reply (j + i)) = true) ->
    pollLoop (k + ticks) operationRetryWait rest condition (after j, v) =
    pollLoop ticks operationRetryWait rest condition
      (after (j + k), match k with
                      | O => v
                      | S i => replyOperation (reply (j + i))
                      end).
Proof.
  induction k as [| k IH]; intros ticks j rest v Hpending.
  - rewrite Nat.add_0_r. reflexivity.
  - change (S k + ticks)%nat with (S (k + ticks)).
    rewrite pollLoop_step.
    pose proof (Hpending 0%nat ltac:(lia)) as H0.
    rewrite Nat.add_0_r in H0.
    destruct (reply j) as [op | err] eqn:Hj; [| discriminate].
    simpl in H0. apply negb_true_iff in H0. rewrite H0.
    rewrite (IH ticks (S j) rest (Some op)).
    + replace (S j + k)%nat with (j + S k)%nat by lia.
      destruct k as [| k'].
      * rewrite Nat.add_0_r, Hj. reflexivity.
      * replace (S j + k')%nat with (j + S k')%nat by lia. reflexivity.
    + intros i Hi. replace (S j + i)%nat with (j + S i)%nat by lia.
      apply Hpending. lia.
Qed.

End Poller.

(** ** Messages inside messages *)

Lemma append_cons (x : ascii) (a b : string) :
  String x a +:+ b = String x (a +:+ b).
Proof. reflexivity. Qed.

Lemma append_assoc (a b c : string) : (a +:+ b) +:+ c = a +:+ b +:+ c.
Proof.
  induction a as [| x a IH]; [reflexivity |].
  rewrite !append_cons. f_equal. exact IH.
Qed.

Lemma append_nil_r (a : string) : a +:+ "" = a.
Proof.
  induction a as [| x a IH]; [reflexivity |].
  rewrite !append_cons. f_equal. exact IH.
Qed.

Lemma occursIn_refl (m : string) : occursIn m m.
Proof. exists "", "". now rewrite append_nil_r. Qed.

Lemma occursIn_prepend (m a s : string) :
  occursIn m s -> occursIn m (a +:+ s).
Proof.
  intros (before & after & ->). exists (a +:+ before), after.
  now rewrite append_assoc.
Qed.

Lemma occursIn_append (m s b : string) :
  occursIn m s -> occursIn m (s +:+ b).
Proof.
  intros (before & after & ->). exists before, (after +:+ b).
  now rewrite !append_assoc.
Qed.

Create HintDb occurs.
#[local] Hint Resolve occursIn_refl occursIn_prepend occursIn_append
  : occurs.

Lemma occursIn_join (sep x : string) (l : list string) :
  In x l -> occursIn x (join sep l).
Proof.
  induction l as [| y l IH]; intros Hin; [destruct Hin |].
  destruct Hin as [-> | Hin].
  - destruct l; simpl; auto with occurs.
  - destruct l as [| z l]; [destruct Hin |].
    change (join sep (y :: z :: l)) with (y +:+ sep +:+ join sep (z :: l)).
    auto with occurs.
Qed.

Lemma occursIn_fmtOperationErrorErrors (e : compute.OperationErrorErrors) :
  occursIn (compute.Message e) (fmtOperationErrorErrors e).
Proof. unfold fmtOperationErrorErrors. auto 10 with occurs. Qed.

(** The aggregate error of a failed operation keeps every message. *)
Lemma occursIn_aggregate (errs : list compute.OperationErrorErrors)
    (e : compute.OperationErrorErrors) :
  In e errs ->
  occursIn (compute.Message e)
    ("the following errors occurred: "
     +:+ fmtErrors
           (map (fun opErr => ErrorString (fmtOperationErrorErrors opErr))
                errs)).
Proof.
  intros Hin. apply occursIn_prepend. unfold fmtErrors.
  apply occursIn_prepend, occursIn_append.
  destruct (occursIn_fmtOperationErrorErrors e) as (before & after & Hfmt).
  assert (Hjoin : occursIn (fmtOperationErrorErrors e)
            (join " " (map Error
               (map (fun opErr =>
                       ErrorString (fmtOperationErrorErrors opErr)) errs)))).
  { apply occursIn_join. rewrite map_map. simpl.
    apply in_map_iff. exists e. split; [reflexivity | assumption]. }
  destruct Hjoin as (b' & a' & ->). rewrite Hfmt.
  exists (b' +:+ before), (after +:+ a').
  now rewrite !append_assoc.
Qed.

(** ** What [waitUntilOperationCompleted] returns *)

Lemma pollRuns_operation :
  pollRuns operationRetryWait operationTimeOut = 36%nat.
Proof. reflexivity. Qed.

Lemma allowedRuns_cases (s : State) :
  allowedRuns s = if lastTick s then 37%nat else 36%nat.
Proof. unfold allowedRuns. destruct (lastTick s); reflexivity. Qed.

(** The poll of an operation: 36 ticks and no wait before the run on
    the closed channel when the tick on the deadline is delivered, 35
    ticks and the last 5 seconds otherwise. *)
Lemma Poll_operation (cs : GCPComputeService) (s : State)
    (zone operationName : string) :
  Poll operationRetryWait operationTimeOut
    (operationCondition cs (projectID (scope s)) zone operationName)
    (s, None)
  = pollLoop (if lastTick s then 36 else 35) operationRetryWait
      (if lastTick s then 0 else 5)
      (operationCondition cs (projectID (scope s)) zone operationName)
      (s, None).
Proof.
  unfold Poll, tickWins, pair_Raced, tickWins, State_Raced. cbn [fst].
  destruct (lastTick s); reflexivity.
Qed.

(** Up to 36 fetches the state is [fetched]; the fetch on the closed
    channel after 36 ticks comes without a wait. *)
Lemma polled_fetched (s : State) (zone operationName : string) (k : nat) :
  (k <= 36)%nat ->
  polled s zone operationName k = fetched s zone operationName k.
Proof.
  intros Hk. unfold polled, fetched, operationRetryWait, operationTimeOut.
  f_equal. lia.
Qed.

Lemma polled_37 (s : State) (zone operationName : string) :
  logCall (fetchCall s zone operationName)
    (tick 0 (fetched s zone operationName 36))
  = polled s zone operationName 37.
Proof.
  unfold polled, fetched, logCall, tick, State_Timed,
    operationRetryWait, operationTimeOut.
  cbn [scope events calls clock lastTick]. f_equal.
  - rewrite <- app_assoc. reflexivity.
  - lia.
Qed.

(** After [N] pending replies and within the 36 fetches that every
    schedule allows, the reply number [N] decides. *)
Lemma wait_decided (cs : GCPComputeService) (s : State)
    (zone operationName : string) (N : nat) :
  (N < pollRuns operationRetryWait operationTimeOut)%nat ->
  (forall i, (i < N)%nat ->
     pending (fetchReply cs s zone operationName i) = true) ->
  pending (fetchReply cs s zone operationName N) = false ->
  waitUntilOperationCompleted cs zone operationName s =
  match fetchReply cs s zone operationName N with
  | inr err => ((None, Some err), fetched s zone operationName (S N))
  | inl op =>
      match compute.Operation_Error op with
      | None => ((Some op, None), fetched s zone operationName (S N))
      | Some opError =>
          ((Some op,
            Some (ErrorString
              ("the following errors occurred: "
               +:+ fmtErrors
                     (map (fun opErr =>
                             ErrorString (fmtOperationErrorErrors opErr))
                          (compute.Errors opError))))),
           fetched s zone operationName (S N))
      end
  end.
Proof.
  intros HN Hpending Hdecides. rewrite pollRuns_operation in HN.
  unfold waitUntilOperationCompleted. rewrite Poll_operation.
  rewrite <- (fetched_0 s zone operationName) at 4.
  assert (Hskip : forall i, (i < N)%nat ->
            pending (fetchReply cs s zone operationName (0 + i)) = true)
    by (intros i Hi; apply Hpending; exact Hi).
  assert (Hterminal : forall op,
            fetchReply cs s zone operationName N = inl op ->
            terminal op = true).
  { intros op Hop. rewrite Hop in Hdecides. simpl in Hdecides.
    now apply negb_false_iff in Hdecides. }
  destruct (lastTick s);
    [| destruct (Nat.eq_dec N 35%nat) as [-> | Hne]].
  - replace 36%nat with (N + S (35 - N))%nat by lia.
    rewrite (pollLoop_pending cs s zone operationName N _ 0%nat 0 None Hskip).
    rewrite pollLoop_step. simpl (0 + N)%nat.
    destruct (fetchReply cs s zone operationName N) as [op | err];
      [| reflexivity].
    rewrite (Hterminal op eq_refl).
    destruct (compute.Operation_Error op); reflexivity.
  - change 35%nat with (35 + 0)%nat at 1.
    rewrite (pollLoop_pending cs s zone operationName 35 0 0%nat 5 None
               Hskip).
    rewrite pollLoop_last. cbv zeta. simpl (0 + 35)%nat.
    change 5 with operationRetryWait. rewrite fetched_S.
    destruct (fetchReply cs s zone operationName 35) as [op | err];
      [| reflexivity].
    rewrite (Hterminal op eq_refl).
    destruct (compute.Operation_Error op); reflexivity.
  - replace 35%nat with (N + S (34 - N))%nat by lia.
    rewrite (pollLoop_pending cs s zone operationName N _ 0%nat 5 None Hskip).
    rewrite pollLoop_step. simpl (0 + N)%nat.
    destruct (fetchReply cs s zone operationName N) as [op | err];
      [| reflexivity].
    rewrite (Hterminal op eq_refl).
    destruct (compute.Operation_Error op); reflexivity.
Qed.

(** When the tick on the deadline is lost and the 36 replies are
    pending, the poll times out. *)
Lemma wait_timeout (cs : GCPComputeService) (s : State)
    (zone operationName : string) :
  lastTick s = false ->
  (forall i, (i < pollRuns operationRetryWait operationTimeOut)%nat ->
     pending (fetchReply cs s zone operationName i) = true) ->
  waitUntilOperationCompleted cs zone operationName s =
  ((replyOperation (fetchReply cs s zone operationName 35),
    Some ErrWaitTimeout),
   fetched s zone operationName
     (pollRuns operationRetryWait operationTimeOut)).
Proof.
  intros Hlost Hpending. rewrite pollRuns_operation in *.
  unfold waitUntilOperationCompleted. rewrite Poll_operation, Hlost.
  rewrite <- (fetched_0 s zone operationName) at 2.
  change 35%nat with (35 + 0)%nat at 1.
  rewrite (pollLoop_pending cs s zone operationName 35 0 0%nat 5 None)
    by (intros i Hi; apply Hpending; simpl; lia).
  rewrite pollLoop_last. cbv zeta. simpl (0 + 35)%nat.
  change 5 with operationRetryWait. rewrite fetched_S.
  pose proof (Hpending 35%nat ltac:(lia)) as H35.
  destruct (fetchReply cs s zone operationName 35) as [op | err];
    [| discriminate].
  simpl in H35. apply negb_true_iff in H35. rewrite H35. reflexivity.
Qed.

(** When the tick on the deadline is delivered and the 36 replies are
    pending, there is one more fetch, on the closed channel, without a
    wait: its reply decides, and if it is pending too the poll times
    out. *)
Lemma wait_last (cs : GCPComputeService) (s : State)
    (zone operationName : string) :
  lastTick s = true ->
  (forall i, (i < 36)%nat ->
     pending (fetchReply cs s zone operationName i) = true) ->
  waitUntilOperationCompleted cs zone operationName s =
  match fetchReply cs s zone operationName 36 with
  | inr err => ((None, Some err), polled s zone operationName 37)
  | inl op =>
      if terminal op then
        match compute.Operation_Error op with
        | None => ((Some op, None), polled s zone operationName 37)
        | Some opError =>
            ((Some op,
              Some (ErrorString
                ("the following errors occurred: "
                 +:+ fmtErrors
                       (map (fun opErr =>
                               ErrorString (fmtOperationErrorErrors opErr))
                            (compute.Errors opError))))),
             polled s zone operationName 37)
        end
      else ((Some op, Some ErrWaitTimeout), polled s zone operationName 37)
  end.
Proof.
  intros Hwins Hpending.
  unfold waitUntilOperationCompleted. rewrite Poll_operation, Hwins.
  rewrite <- (fetched_0 s zone operationName) at 2.
  change 36%nat with (36 + 0)%nat at 1.
  rewrite (pollLoop_pending cs s zone operationName 36 0 0%nat 0 None)
    by (intros i Hi; apply Hpending; simpl; lia).
  rewrite pollLoop_last. cbv zeta. simpl (0 + 36)%nat. rewrite polled_37.
  destruct (fetchReply cs s zone operationName 36) as [op | err];
    [| reflexivity].
  destruct (terminal op); [| reflexivity].
  destruct (compute.Operation_Error op); reflexivity.
Qed.

(** In every schedule: the first reply that is not pending, among the
    fetches the schedule allows, decides. *)
Lemma wait_decided_any (cs : GCPComputeService) (s : State)
    (zone operationName : string) (N : nat) :
  (N < allowedRuns s)%nat ->
  (forall i, (i < N)%nat ->
     pending (fetchReply cs s zone operationName i) = true) ->
  pending (fetchReply cs s zone operationName N) = false ->
  waitUntilOperationCompleted cs zone operationName s =
  match fetchReply cs s zone operationName N with
  | inr err => ((None, Some err), polled s zone operationName (S N))
  | inl op =>
      match compute.Operation_Error op with
      | None => ((Some op, None), polled s zone operationName (S N))
      | Some opError =>
          ((Some op,
            Some (ErrorString
              ("the following errors occurred: "
               +:+ fmtErrors
                     (map (fun opErr =>
                             ErrorString (fmtOperationErrorErrors opErr))
                          (compute.Errors opError))))),
           polled s zone operationName (S N))
      end
  end.
Proof.
  intros HN Hpending Hdecides. rewrite allowedRuns_cases in HN.
  destruct (Nat.eq_dec N 36%nat) as [-> | Hne].
  - destruct (lastTick s) eqn:Hwins; [| lia].
    rewrite (wait_last cs s zone operationName Hwins Hpending).
    destruct (fetchReply cs s zone operationName 36) as [op | err];
      [| reflexivity].
    simpl in Hdecides. apply negb_false_iff in Hdecides.
    now rewrite Hdecides.
  - assert (HN' : (N < 36)%nat) by (destruct (lastTick s); lia).
    rewrite (wait_decided cs s zone operationName N)
      by (rewrite ?pollRuns_operation; assumption).
    rewrite (polled_fetched s zone operationName (S N)) by lia.
    reflexivity.
Qed.

(** In every schedule: when all the replies the schedule allows are
    pending, the poll times out at the deadline. *)
Lemma wait_timeout_any (cs : GCPComputeService) (s : State)
    (zone operationName : string) :
  (forall i, (i < allowedRuns s)%nat ->
     pending (fetchReply cs s zone operationName i) = true) ->
  snd (fst (waitUntilOperationCompleted cs zone operationName s))
  = Some ErrWaitTimeout
  /\ snd (waitUntilOperationCompleted cs zone operationName s)
     = polled s zone operationName (allowedRuns s).
Proof.
  intros Hpending. rewrite allowedRuns_cases in *.
  destruct (lastTick s) eqn:Hrace.
  - rewrite (wait_last cs s zone operationName Hrace)
      by (intros i Hi; apply Hpending; lia).
    pose proof (Hpending 36%nat ltac:(lia)) as H36.
    destruct (fetchReply cs s zone operationName 36) as [op | err];
      [| discriminate].
    simpl in H36. apply negb_true_iff in H36. rewrite H36.
    split; reflexivity.
  - rewrite (wait_timeout cs s zone operationName Hrace)
      by (rewrite pollRuns_operation; exact Hpending).
    rewrite pollRuns_operation.
    rewrite (polled_fetched s zone operationName 36) by lia.
    split; reflexivity.
Qed.

(** The poller ends after at least one fetch and at most the fetches
    the schedule allows, in a state [polled] from where it started. *)
Lemma wait_polled (cs : GCPComputeService) (s : State)
    (zone operationName : string) :
  exists k,
    (1 <= k <= allowedRuns s)%nat
    /\ snd (waitUntilOperationCompleted cs zone operationName s)
       = polled s zone operationName k.
Proof.
  destruct (first_decisive
              (fun i => pending (fetchReply cs s zone operationName i))
              (allowedRuns s))
    as [Hall | (N & HN & Hbefore & Hat)].
  - exists (allowedRuns s). split.
    + rewrite allowedRuns_cases. destruct (lastTick s); lia.
    + apply wait_timeout_any. exact Hall.
  - exists (S N). split; [lia |].
    rewrite (wait_decided_any cs s zone operationName N HN Hbefore Hat).
    destruct (fetchReply cs s zone operationName N) as [op | err];
      [destruct (compute.Operation_Error op) |]; reflexivity.
Qed.

(** C3.  The operation poller, for every sequence of replies of
    [ZoneOperationsGet].  Within the [timeout / interval] = 36 fetches
    that every schedule allows, the first reply that is not pending
    decides, after [N] pending replies and [N + 1] fetches, with 5
    seconds slept before each fetch: a fetch error is returned as it
    is; a reply with status DONE and no [Error] gives success; a reply
    with status DONE and an [Error] gives one error whose text contains
    the message of every reported error.  When all 36 replies are
    pending and the tick on the deadline is lost to the timer, the
    poller returns the timeout error after 36 fetches.  When that tick
    is delivered, the poller makes a fetch number 37 on the closed
    channel, at the deadline and without a wait: its reply decides in
    the same way, and a pending reply gives the timeout error. *)
Theorem poller_outcomes (cs : GCPComputeService) (s : State)
    (zone operationName : string) :
  let reply := fetchReply cs s zone operationName in
  let runs := pollRuns operationRetryWait operationTimeOut in
  let wait := waitUntilOperationCompleted cs zone operationName s in
  (forall N err,
     (N < runs)%nat ->
     (forall i, (i < N)%nat -> pending (reply i) = true) ->
     reply N = inr err ->
     wait = ((None, Some err), fetched s zone operationName (S N)))
  /\ (forall N op,
        (N < runs)%nat ->
        (forall i, (i < N)%nat -> pending (reply i) = true) ->
        reply N = inl op -> terminal op = true ->
        compute.Operation_Error op = None ->
        wait = ((Some op, None), fetched s zone operationName (S N)))
  /\ (forall N op opError,
        (N < runs)%nat ->
        (forall i, (i < N)%nat -> pending (reply i) = true) ->
        reply N = inl op -> terminal op = true ->
        compute.Operation_Error op = Some opError ->
        exists msg,
          wait = ((Some op, Some (ErrorString msg)),
                  fetched s zone operationName (S N))
          /\ forall e, In e (compute.Errors opError) ->
                       occursIn (compute.Message e) msg)
  /\ (lastTick s = false ->
      (forall i, (i < runs)%nat -> pending (reply i) = true) ->
      snd (fst wait) = Some ErrWaitTimeout
      /\ snd wait = fetched s zone operationName runs)
  /\ (lastTick s = true ->
      (forall i, (i < runs)%nat -> pending (reply i) = true) ->
      snd wait
      = logCall (CallZoneOperationsGet (projectID (scope s)) zone
                   operationName)
          (fetched s zone operationName runs)
      /\ match reply runs with
         | inr err => fst wait = (None, Some err)
         | inl op =>
             fst (fst wait) = Some op
             /\ if terminal op then
                  match compute.Operation_Error op with
                  | None => snd (fst wait) = None
                  | Some opError =>
                      exists msg,
                        snd (fst wait) = Some (ErrorString msg)
                        /\ forall e, In e (compute.Errors opError) ->
                                     occursIn (compute.Message e) msg
                  end
                else snd (fst wait) = Some ErrWaitTimeout
         end)
  /\ runs = Z.to_nat (180 / 5)
  /\ (forall k,
        scope (fetched s zone operationName k) = scope s
        /\ callsSince s (fetched s zone operationName k)
           = repeat (CallZoneOperationsGet (projectID (scope s)) zone
                       operationName) k
        /\ clock (fetched s zone operationName k) = clock s + 5 * Z.of_nat k).
Proof.
  intros reply runs wait. subst reply runs wait.
  split; [| split; [| split; [| split; [| split; [| split]]]]].
  - intros N err HN Hpending Hreply.
    rewrite (wait_decided cs s zone operationName N HN Hpending);
      rewrite Hreply; reflexivity.
  - intros N op HN Hpending Hreply Hterminal Herror.
    rewrite (wait_decided cs s zone operationName N HN Hpending);
      rewrite Hreply; [now rewrite Herror |].
    simpl. now rewrite Hterminal.
  - intros N op opError HN Hpending Hreply Hterminal Herror.
    eexists. split.
    + rewrite (wait_decided cs s zone operationName N HN Hpending);
        rewrite Hreply; [rewrite Herror; reflexivity |].
      simpl. now rewrite Hterminal.
    + intros e He. now apply occursIn_aggregate.
  - intros Hlost Hpending. now rewrite wait_timeout.
  - intros Hwins Hpending. rewrite pollRuns_operation in *.
    rewrite (wait_last cs s zone operationName Hwins Hpending).
    assert (Hstate :
              polled s zone operationName 37
              = logCall (CallZoneOperationsGet (projectID (scope s)) zone
                           operationName)
                  (fetched s zone operationName 36)).
    { rewrite <- polled_37. unfold tick, State_Timed, logCall, fetchCall.
      cbn [scope events calls clock lastTick fetched]. f_equal. lia. }
    destruct (fetchReply cs s zone operationName 36) as [op | err];
      [| split; [exact Hstate | reflexivity]].
    destruct (terminal op);
      [destruct (compute.Operation_Error op) eqn:Herror |];
      (split; [exact Hstate |]); (split; [reflexivity |]);
      cbn [fst snd]; try reflexivity.
    eexists. split; [reflexivity |].
    intros e He. now apply occursIn_aggregate.
  - reflexivity.
  - intros k. repeat split. unfold callsSince, fetched. simpl calls.
    apply drop_app_length.
Qed.

(** The mock operation is done at the third fetch, 15 seconds in; an
    operation that stays pending times out after 36 fetches; and when
    the tick on the deadline is delivered, an operation that is done
    at the fetch number 37 still succeeds. *)
Lemma poller_outcomes_witness :
  waitUntilOperationCompleted (Fixture.service 2) "us-east1-b" "operation-1"
    Fixture.state
  = ((Some (Fixture.operation "DONE"), None),
     fetched Fixture.state "us-east1-b" "operation-1" 3)
  /\ snd (fst (waitUntilOperationCompleted (Fixture.service 99) "us-east1-b"
                 "operation-1" Fixture.state))
     = Some ErrWaitTimeout
  /\ fst (waitUntilOperationCompleted (Fixture.service 36) "us-east1-b"
            "operation-1" Fixture2.tickState)
     = (Some (Fixture.operation "DONE"), None).
Proof.
  split; [| split].
  - apply (proj1 (proj2 (poller_outcomes (Fixture.service 2) Fixture.state
                           "us-east1-b" "operation-1")) 2%nat).
    + rewrite pollRuns_operation. lia.
    + intros [| [| i]] Hi; [reflexivity | reflexivity | lia].
    + reflexivity.
    + reflexivity.
    + reflexivity.
  - apply (proj1 (proj2 (proj2 (proj2
             (poller_outcomes (Fixture.service 99) Fixture.state
                "us-east1-b" "operation-1"))))); [reflexivity |].
    rewrite pollRuns_operation. intros i Hi.
    do 36 (destruct i as [| i]; [reflexivity |]). lia.
  - pose proof (proj1 (proj2 (proj2 (proj2 (proj2
                  (poller_outcomes (Fixture.service 36) Fixture2.tickState
                     "us-east1-b" "operation-1"))))) eq_refl) as Hlast.
    rewrite pollRuns_operation in Hlast.
    assert (Hpending : forall i, (i < 36)%nat ->
              pending (fetchReply (Fixture.service 36) Fixture2.tickState
                         "us-east1-b" "operation-1" i) = true).
    { intros i Hi.
      do 36 (destruct i as [| i]; [reflexivity |]). lia. }
    destruct (Hlast Hpending) as [_ Hreply].
    change (fetchReply (Fixture.service 36) Fixture2.tickState
              "us-east1-b" "operation-1" 36)
      with (@inl compute.Operation error (Fixture.operation "DONE"))
      in Hreply.
    cbv beta iota in Hreply. destruct Hreply as [Hop Hnil].
    change (terminal (Fixture.operation "DONE")) with true in Hnil.
    change (compute.Operation_Error (Fixture.operation "DONE"))
      with (@None compute.OperationError) in Hnil.
    cbv beta iota in Hnil.
    destruct (waitUntilOperationCompleted (Fixture.service 36) "us-east1-b"
                "operation-1" Fixture2.tickState) as [[op err] s'].
    cbn [fst snd] in *. now subst.
Defined.

(** The poller asks only [ZoneOperationsGet]. *)
Lemma wait_ext (cs cs' : GCPComputeService) (zone operationName : string)
    (s : State) :
  ZoneOperationsGet cs' = ZoneOperationsGet cs ->
  waitUntilOperationCompleted cs' zone operationName s
  = waitUntilOperationCompleted cs zone operationName s.
Proof.
  intros Hsame.
  unfold waitUntilOperationCompleted, operationCondition,
    callZoneOperationsGet.
  rewrite Hsame. reflexivity.
Qed.

(** ** [exists] *)

Lemma exists_unfold (cs : GCPComputeService) (s : State) :
  exists_ cs s =
  match zoneReply cs s with
  | inr err =>
      ((false,
        Some (ErrorString
          ("unable to verify project/zone exists: "
           +:+ projectID (scope s) +:+ "/"
           +:+ Zone (providerSpec (scope s)) +:+ "; err: " +:+ Error err))),
       logCall (targetZone s) s)
  | inl _ =>
      let s' := logCall (targetGet s) (logCall (targetZone s) s) in
      match instanceReply cs s (calls s ++ [targetZone s]) with
      | inl _ => ((true, None), s')
      | inr err =>
          if isNotFoundError err then ((false, None), s')
          else ((false,
                 Some (ErrorString
                   ("error getting running instances: " +:+ Error err))),
                s')
      end
  end.
Proof.
  unfold exists_, validateZone, bind, gets, ret, callZonesGet,
    callInstancesGet, zoneReply, instanceReply. cbn [validateMachine].
  destruct (ZonesGet cs (calls s) _ _) as [z | err]; [| reflexivity].
  cbn [scope calls logCall].
  destruct (InstancesGet cs _ _ _ _) as [inst | err]; [reflexivity |].
  destruct (isNotFoundError err); reflexivity.
Qed.

Lemma isNotFoundError_iff (err : error) :
  isNotFoundError err = true <-> exists m, err = GoogleapiError 404 m.
Proof.
  split.
  - destruct err as [c m | | |]; simpl; try discriminate.
    intros Hc. apply Z.eqb_eq in Hc. subst c. now exists m.
  - intros [m ->]. reflexivity.
Qed.

(** C1.  [exists] returns [(true, nil)] exactly when the zone lookup
    succeeds and [InstancesGet] returns an instance; [(false, nil)]
    exactly when the zone lookup succeeds and [InstancesGet] returns a
    not-found error, which is a [*googleapi.Error] with code 404; and
    [(false, err)] with a non-nil [err] for every other failure: a
    failed zone lookup (also one that is itself a 404), or any other
    error of [InstancesGet]. *)
Theorem exists_outcomes (cs : GCPComputeService) (s : State) :
  let zone := zoneReply cs s in
  let instance := instanceReply cs s (calls s ++ [targetZone s]) in
  let result := fst (exists_ cs s) in
  (result = (true, None) <->
     (exists z i, zone = inl z /\ instance = inl i))
  /\ (result = (false, None) <->
        (exists z err, zone = inl z /\ instance = inr err
                       /\ isNotFoundError err = true))
  /\ ((exists err, result = (false, Some err)) <->
        ((exists err, zone = inr err)
         \/ (exists z err, zone = inl z /\ instance = inr err
                           /\ isNotFoundError err = false)))
  /\ (forall err, isNotFoundError err = true <->
                  exists m, err = GoogleapiError 404 m).
Proof.
  intros zone instance result. subst zone instance result.
  rewrite exists_unfold.
  destruct (zoneReply cs s) as [z | zerr].
  - cbv zeta.
    destruct (instanceReply cs s (calls s ++ [targetZone s]))
      as [i | err].
    + cbn [fst]. split; [| split; [| split]].
      * split; [intros _; now exists z, i | reflexivity].
      * split; [discriminate | intros (? & ? & _ & ? & _); discriminate].
      * split; [intros [? ?]; discriminate |].
        intros [[? ?] | (? & ? & _ & ? & _)]; discriminate.
      * apply isNotFoundError_iff.
    + destruct (isNotFoundError err) eqn:Hnf; cbn [fst];
        (split; [| split; [| split]]); try apply isNotFoundError_iff.
      * split; [discriminate | intros (? & ? & _ & ?); discriminate].
      * split; [intros _; now exists z, err | reflexivity].
      * split; [intros [? ?]; discriminate |].
        intros [[? ?] | (? & e & _ & He & Hf)]; [discriminate |].
        congruence.
      * split; [discriminate | intros (? & ? & _ & ?); discriminate].
      * split; [discriminate |].
        intros (? & e & _ & He & Hf). congruence.
      * split; [intros _; right; now exists z, err |].
        intros _. eexists. reflexivity.
  - cbn [fst]. split; [| split; [| split]].
    + split; [discriminate | intros (? & ? & ? & _); discriminate].
    + split; [discriminate | intros (? & ? & ? & _); discriminate].
    + split; [intros _; left; now exists zerr |].
      intros _. eexists. reflexivity.
    + apply isNotFoundError_iff.
Qed.

(** When [exists] returns no error it has asked for the zone and for the
    instance, and nothing else has changed. *)
Lemma exists_state (cs : GCPComputeService) (s s1 : State) (found : bool) :
  exists_ cs s = ((found, None), s1) ->
  s1 = logCall (targetGet s) (logCall (targetZone s) s).
Proof.
  rewrite exists_unfold.
  destruct (zoneReply cs s); [| discriminate]. cbv zeta.
  destruct (instanceReply cs s _) as [i | err].
  - now intros [= _ <-].
  - destruct (isNotFoundError err); [now intros [= _ <-] | discriminate].
Qed.

Lemma callsSince_logCall2 (s : State) (c1 c2 : Call) (more : list Call)
    (s' : State) :
  calls s' = calls (logCall c2 (logCall c1 s)) ++ more ->
  callsSince s s' = c1 :: c2 :: more.
Proof.
  intros Hcalls. unfold callsSince. rewrite Hcalls. cbn [calls logCall].
  rewrite <- !app_assoc. apply drop_app_length.
Qed.

(** ** [delete] *)

Lemma occursIn_trans (a b c : string) :
  occursIn a b -> occursIn b c -> occursIn a c.
Proof.
  intros (p & q & ->) (p' & q' & ->).
  exists (p' +:+ p), (q +:+ q'). now rewrite !append_assoc.
Qed.

(** A result that follows the poller's, in a state with the poller's
    calls and clock, is the result of a poll to the terminal status. *)
Lemma wait_terminal (cs : GCPComputeService) (s0 : State)
    (zone operationName : string) (result : option error) (s' : State) :
  let wait := waitUntilOperationCompleted cs zone operationName s0 in
  calls s' = calls (snd wait) ->
  clock s' = clock (snd wait) ->
  (snd (fst wait) = None -> result = None) ->
  (forall err, snd (fst wait) = Some err -> keeps err result) ->
  polledToTerminal cs s0 zone operationName result s'.
Proof.
  cbv zeta. intros Hcalls Hclock Hnil Herr. unfold polledToTerminal.
  cbv zeta. unfold callsSince. rewrite Hcalls, Hclock. split.
  - intros N HN Hpending Hdecides.
    rewrite (wait_decided cs s0 zone operationName N HN Hpending Hdecides)
      in *.
    assert (Hstate :
              drop (length (calls s0))
                (calls (fetched s0 zone operationName (S N)))
              = repeat (fetchCall s0 zone operationName) (S N)
              /\ clock (fetched s0 zone operationName (S N))
                 = clock s0 + operationRetryWait * Z.of_nat (S N)).
    { split; [| reflexivity]. cbn [fetched calls].
      apply drop_app_length. }
    destruct (fetchReply cs s0 zone operationName N) as [op | err].
    + destruct (compute.Operation_Error op) as [opError |];
        cbn [fst snd] in *; (split; [apply Hstate |]);
        (split; [apply Hstate |]).
      * destruct (Herr _ eq_refl) as (msg & -> & Hkept).
        exists msg. split; [reflexivity |].
        intros e He. apply (occursIn_trans _ _ _ (occursIn_aggregate _ e He)).
        exact Hkept.
      * now apply Hnil.
    + cbn [fst snd] in *. split; [apply Hstate |]. split; [apply Hstate |].
      now apply Herr.
  - intros Hpending.
    destruct (wait_timeout_any cs s0 zone operationName Hpending)
      as [Htimeout Hstate].
    rewrite Hstate. split; [now apply Herr |].
    unfold polled. cbn [calls clock]. split; [apply drop_app_length |].
    rewrite allowedRuns_cases. unfold operationRetryWait, operationTimeOut.
    destruct (lastTick s0); reflexivity.
Qed.

(** C2.  When [exists] returns [(false, nil)], [delete] returns nil in
    the state [exists] left: the only calls made are the zone lookup and
    the instance lookup, and none is [InstancesDelete].  When [exists]
    returns [(true, nil)], [delete] calls [InstancesDelete] next; if that
    fails [delete] fails, and if it returns an operation, [delete] polls
    that operation to its terminal status: it fetches the operation by
    its name, once at least, and what the fetches reply decides what
    [delete] returns.  After [N] pending replies the first reply that is
    not pending ends [delete] after exactly [N + 1] fetches, with nil
    when the operation is done without error and with an error that
    keeps the fetch error or every reported error otherwise; when no
    reply turns terminal [delete] fails with the timeout.  [create] polls
    the operation that [InstancesInsert] returns in the same way, with
    the same function, and succeeds exactly when the poll does. *)
Theorem delete_outcomes (cs : GCPComputeService) (s : State) :
  let zone := Zone (providerSpec (scope s)) in
  (forall s1,
     exists_ cs s = ((false, None), s1) ->
     delete cs s = (None, s1)
     /\ callsSince s (snd (delete cs s)) = [targetZone s; targetGet s]
     /\ List.filter isInstancesDelete (callsSince s (snd (delete cs s)))
        = [])
  /\ (forall s1,
        exists_ cs s = ((true, None), s1) ->
        let reply :=
          InstancesDelete cs (calls s1) (projectID (scope s)) zone
            (Name (Meta (machine (scope s)))) in
        let s2 := logCall (targetDelete s) s1 in
        (forall err,
           reply = inr err ->
           snd (delete cs s) = s2
           /\ exists msg, fst (delete cs s) = Some (ErrorString msg)
                          /\ occursIn (Error err) msg)
        /\ (forall operation,
              reply = inl operation ->
              let wait :=
                waitUntilOperationCompleted cs zone
                  (compute.Operation_Name operation) s2 in
              snd (delete cs s) = snd wait
              /\ (exists k,
                    (1 <= k)%nat
                    /\ callsSince s (snd (delete cs s))
                       = [targetZone s; targetGet s; targetDelete s]
                         ++ repeat (fetchCall s zone
                                      (compute.Operation_Name operation)) k)
              /\ (fst (delete cs s) = None <-> snd (fst wait) = None)
              /\ (forall err,
                    snd (fst wait) = Some err ->
                    exists msg, fst (delete cs s) = Some (ErrorString msg)
                                /\ occursIn (Error err) msg)
              /\ polledToTerminal cs s2 zone
                   (compute.Operation_Name operation)
                   (fst (delete cs s)) (snd (delete cs s))))
  /\ (forall coreClient userData operation,
        getCustomUserData coreClient (scope s) = (userData, None) ->
        InstancesInsert cs (calls s) (projectID (scope s)) zone
          (instanceOf (scope s) userData) = inl operation ->
        let wait :=
          waitUntilOperationCompleted cs zone
            (compute.Operation_Name operation)
            (logCall (CallInstancesInsert (projectID (scope s)) zone
                        (instanceOf (scope s) userData)) s) in
        calls (snd (createBody cs coreClient s)) = calls (snd wait)
        /\ (fst (createBody cs coreClient s) = None
            <-> snd (fst wait) = None)
        /\ (forall err,
              snd (fst wait) = Some err ->
              exists msg,
                fst (createBody cs coreClient s) = Some (ErrorString msg)
                /\ occursIn (Error err) msg)
        /\ polledToTerminal cs
             (logCall (CallInstancesInsert (projectID (scope s)) zone
                         (instanceOf (scope s) userData)) s)
             zone (compute.Operation_Name operation)
             (fst (createBody cs coreClient s))
             (snd (createBody cs coreClient s))).
Proof.
  intros zone. subst zone. split; [| split].
  - intros s1 Hex.
    assert (Hdel : delete cs s = (None, s1)).
    { unfold delete, bind, gets. rewrite Hex. reflexivity. }
    rewrite Hdel. cbn [snd].
    apply exists_state in Hex. subst s1.
    rewrite (callsSince_logCall2 s (targetZone s) (targetGet s) [])
      by (now rewrite app_nil_r).
    repeat split.
  - intros s1 Hex reply s2. subst reply s2.
    pose proof (exists_state cs s s1 true Hex) as Hs1.
    split.
    + intros err Herr.
      unfold delete, bind, gets, callInstancesDelete. rewrite Hex, Herr.
      cbn [fst snd ret]. split; [reflexivity |].
      eexists. split; [reflexivity |]. auto with occurs.
    + intros operation Hop wait. subst wait.
      pose proof (wait_terminal cs (logCall (targetDelete s) s1)
                    (Zone (providerSpec (scope s)))
                    (compute.Operation_Name operation)) as Hterminal.
      cbv zeta in Hterminal.
      unfold delete, bind, gets, callInstancesDelete. rewrite Hex, Hop.
      fold (targetDelete s).
      destruct (wait_polled cs (logCall (targetDelete s) s1)
                  (Zone (providerSpec (scope s)))
                  (compute.Operation_Name operation)) as (k & Hk & Hstate).
      destruct (waitUntilOperationCompleted cs _ _ _) as [[op werr] s3].
      cbn [snd fst] in *.
      assert (Hcalls : exists k',
                (1 <= k')%nat
                /\ callsSince s s3
                   = [targetZone s; targetGet s; targetDelete s]
                     ++ repeat (fetchCall s (Zone (providerSpec (scope s)))
                                  (compute.Operation_Name operation)) k').
      { exists k. split; [lia |]. subst s3 s1. unfold callsSince, polled.
        cbn [calls logCall scope]. rewrite <- !app_assoc.
        apply drop_app_length. }
      destruct werr as [err |]; cbn [ret fst snd].
      * split; [reflexivity |]. split; [exact Hcalls |].
        split; [split; discriminate |].
        split.
        -- intros err' [= <-]. eexists. split; [reflexivity |].
           auto 10 with occurs.
        -- apply Hterminal; [reflexivity | reflexivity | discriminate |].
           intros err' [= <-]. eexists. split; [reflexivity |].
           auto 10 with occurs.
      * split; [reflexivity |]. split; [exact Hcalls |].
        split; [split; reflexivity |]. split; [discriminate |].
        apply Hterminal; [reflexivity | reflexivity | reflexivity |].
        discriminate.
  - intros coreClient userData operation Hud Hop wait. subst wait.
    pose proof (wait_terminal cs
                  (logCall (CallInstancesInsert (projectID (scope s))
                              (Zone (providerSpec (scope s)))
                              (instanceOf (scope s) userData)) s)
                  (Zone (providerSpec (scope s)))
                  (compute.Operation_Name operation)) as Hterminal.
    cbv zeta in Hterminal.
    unfold createBody, bind, gets, callInstancesInsert.
    cbn [validateMachine]. rewrite Hud, Hop.
    destruct (waitUntilOperationCompleted cs _ _ _) as [[op werr] s3].
    destruct werr as [err |]; cbn [ret fst snd] in *.
    + split; [reflexivity |]. split; [split; discriminate |].
      split.
      * intros err' [= <-]. eexists. split; [reflexivity |].
        auto 10 with occurs.
      * apply Hterminal; [reflexivity | reflexivity | discriminate |].
        intros err' [= <-]. eexists. split; [reflexivity |].
        auto 10 with occurs.
    + unfold Eventf, modify. cbn [fst snd calls logEvent].
      split; [reflexivity |]. split; [split; reflexivity |].
      split; [discriminate |].
      apply Hterminal; [reflexivity | reflexivity | reflexivity |].
      discriminate.
Qed.

(** [delete] of an absent instance; and [delete] of a present one whose
    operation is pending once and then done: two fetches, 10 seconds,
    nil. *)
Lemma delete_outcomes_witness :
  delete Fixture.absent Fixture.state
  = (None,
     logCall (targetGet Fixture.state)
       (logCall (targetZone Fixture.state) Fixture.state))
  /\ (callsSince
        (logCall (targetDelete Fixture.state)
           (logCall (targetGet Fixture.state)
              (logCall (targetZone Fixture.state) Fixture.state)))
        (snd (delete (Fixture.service 1) Fixture.state))
      = repeat (CallZoneOperationsGet "testProject" "us-east1-b"
                  "operation-1") 2
      /\ clock (snd (delete (Fixture.service 1) Fixture.state)) = 10
      /\ fst (delete (Fixture.service 1) Fixture.state) = None).
Proof.
  split.
  - apply (proj1 (delete_outcomes Fixture.absent Fixture.state)).
    reflexivity.
  - pose proof (proj1 (proj2 (delete_outcomes (Fixture.service 1)
                                Fixture.state))
                  (logCall (targetGet Fixture.state)
                     (logCall (targetZone Fixture.state) Fixture.state))
                  eq_refl) as [_ Hpresent].
    pose proof (proj2 (proj2 (proj2 (proj2
                  (Hpresent (Fixture.operation "PENDING") eq_refl)))))
      as [Hdecided _].
    apply (Hdecided 1%nat).
    + rewrite pollRuns_operation. lia.
    + intros [| i] Hi; [reflexivity | lia].
    + reflexivity.
Defined.

(** ** [create] *)

Lemma filter_insert_repeat (c : Call) (k : nat) :
  isInstancesInsert c = false ->
  List.filter isInstancesInsert (repeat c k) = [].
Proof.
  intros Hc. induction k as [| k IH]; [reflexivity |].
  simpl. now rewrite Hc.
Qed.

(** The body of [create] leaves the scope alone; when the user data is
    there it submits the descriptor [instanceOf] and then only fetches
    the operation. *)
Lemma createBody_frame (cs : GCPComputeService) (coreClient : Client)
    (s : State) :
  let s1 := snd (createBody cs coreClient s) in
  scope s1 = scope s
  /\ match getCustomUserData coreClient (scope s) with
     | (_, Some _) => calls s1 = calls s
     | (userData, None) =>
         exists operationName k,
           calls s1 =
           calls s
           ++ CallInstancesInsert (projectID (scope s))
                (Zone (providerSpec (scope s)))
                (instanceOf (scope s) userData)
              :: repeat (CallZoneOperationsGet (projectID (scope s))
                           (Zone (providerSpec (scope s))) operationName) k
     end.
Proof.
  unfold createBody, bind, gets, callInstancesInsert.
  cbn [validateMachine].
  destruct (getCustomUserData coreClient (scope s)) as [userData [err |]];
    [split; reflexivity |].
  destruct (InstancesInsert cs (calls s) _ _ _) as [operation | err].
  - destruct (wait_polled cs
                (logCall (CallInstancesInsert (projectID (scope s))
                            (Zone (providerSpec (scope s)))
                            (instanceOf (scope s) userData)) s)
                (Zone (providerSpec (scope s)))
                (compute.Operation_Name operation)) as (k & _ & Hk).
    destruct (waitUntilOperationCompleted cs _ _ _) as [[op werr] s3].
    cbn [snd] in Hk. subst s3.
    destruct werr as [err |]; cbn [ret snd Eventf modify];
      (split; [reflexivity |]);
      exists (compute.Operation_Name operation), k;
      cbn [calls polled logCall logEvent scope];
      now rewrite <- app_assoc.
  - cbn [ret snd]. split; [reflexivity |].
    exists "", 0%nat. reflexivity.
Qed.

(** The deferred call: [create] ends with the state projector, whatever
    the body returned, and returns what the body returned. *)
Lemma create_unfold (cs : GCPComputeService) (coreClient : Client)
    (s : State) :
  create cs coreClient s
  = (fst (createBody cs coreClient s),
     snd (reconcileMachineWithCloudState cs
            (snd (createBody cs coreClient s)))).
Proof.
  unfold create, bind.
  destruct (createBody cs coreClient s) as [err s1]. cbn [fst snd].
  destruct (reconcileMachineWithCloudState cs s1) as [rerr s2].
  reflexivity.
Qed.

(** The state projector makes one call, [InstancesGet] for the target. *)
Lemma reconcile_calls (cs : GCPComputeService) (s : State) :
  calls (snd (reconcileMachineWithCloudState cs s))
  = calls s ++ [targetGet s].
Proof.
  unfold reconcileMachineWithCloudState, bind, gets, callInstancesGet.
  destruct (InstancesGet cs (calls s) _ _ _) as [inst | err];
    [| reflexivity].
  destruct (compute.Instance_NetworkInterfaces inst); reflexivity.
Qed.

Lemma create_calls (cs : GCPComputeService) (coreClient : Client)
    (s : State) :
  calls (snd (create cs coreClient s))
  = calls (snd (createBody cs coreClient s)) ++ [targetGet s].
Proof.
  rewrite create_unfold. cbn [snd]. rewrite reconcile_calls.
  unfold targetGet.
  now rewrite (proj1 (createBody_frame cs coreClient s)).
Qed.

(** What [create] submits. *)
Lemma create_submitted (cs : GCPComputeService) (coreClient : Client)
    (s : State) (userData : string) :
  getCustomUserData coreClient (scope s) = (userData, None) ->
  exists more,
    callsSince s (snd (create cs coreClient s))
    = CallInstancesInsert (projectID (scope s))
        (Zone (providerSpec (scope s))) (instanceOf (scope s) userData)
      :: more
    /\ List.filter isInstancesInsert more = [].
Proof.
  intros Hud.
  pose proof (proj2 (createBody_frame cs coreClient s)) as Hframe.
  cbv zeta in Hframe. rewrite Hud in Hframe.
  destruct Hframe as (operationName & k & Hcalls).
  eexists. unfold callsSince. rewrite create_calls, Hcalls.
  rewrite <- app_assoc, drop_app_length. cbn [app].
  split; [reflexivity |].
  rewrite List.filter_app, filter_insert_repeat by reflexivity.
  reflexivity.
Qed.

Lemma create_not_submitted (cs : GCPComputeService) (coreClient : Client)
    (s : State) (userData : string) (err : error) :
  getCustomUserData coreClient (scope s) = (userData, Some err) ->
  callsSince s (snd (create cs coreClient s)) = [targetGet s].
Proof.
  intros Hud.
  pose proof (proj2 (createBody_frame cs coreClient s)) as Hframe.
  cbv zeta in Hframe. rewrite Hud in Hframe.
  unfold callsSince. rewrite create_calls, Hframe.
  apply drop_app_length.
Qed.

(** C4.  Whenever [create] submits an instance descriptor, the first
    entry of its metadata has the key "user-data" and, as value, what
    [getCustomUserData] returned.  With no [UserDataSecret] in the spec,
    [create] always submits a descriptor, and the entry is there with
    the empty string as value.  With a reference to a secret that holds
    the key [userData], the value is the base64 encoding of the data
    under that key. *)
Theorem create_user_data (cs : GCPComputeService) (coreClient : Client)
    (s : State) :
  let r := scope s in
  let made := callsSince s (snd (create cs coreClient s)) in
  let entry (value : string) (instance : compute.Instance) : Prop :=
    exists items,
      compute.Instance_Metadata instance
      = Some {| compute.Metadata_Items := items |}
      /\ head items = Some {| compute.Key := "user-data";
                              compute.Value := Some value |} in
  (UserDataSecret (providerSpec r) = None ->
   exists instance,
     List.filter isInstancesInsert made
     = [CallInstancesInsert (projectID r) (Zone (providerSpec r)) instance]
     /\ entry "" instance)
  /\ (forall ref secret data,
        UserDataSecret (providerSpec r) = Some ref ->
        Get coreClient (Namespace (Meta (machine r)))
          (LocalObjectReference_Name ref) = inl secret ->
        Data secret !! userDataSecretKey = Some data ->
        exists instance,
          List.filter isInstancesInsert made
          = [CallInstancesInsert (projectID r) (Zone (providerSpec r))
               instance]
          /\ entry (base64.EncodeToString data) instance)
  /\ (forall project zone instance,
        In (CallInstancesInsert project zone instance) made ->
        exists userData,
          getCustomUserData coreClient r = (userData, None)
          /\ entry userData instance).
Proof.
  intros r made entry.
  assert (Hsubmitted : forall userData,
            getCustomUserData coreClient r = (userData, None) ->
            exists instance,
              List.filter isInstancesInsert made
              = [CallInstancesInsert (projectID r) (Zone (providerSpec r))
                   instance]
              /\ entry userData instance).
  { intros userData Hud.
    destruct (create_submitted cs coreClient s userData Hud)
      as (more & Hmade & Hmore).
    exists (instanceOf r userData). subst made. rewrite Hmade.
    cbn [List.filter isInstancesInsert]. rewrite Hmore.
    split; [reflexivity |]. eexists. split; reflexivity. }
  split; [| split].
  - intros Hnone. apply Hsubmitted.
    unfold getCustomUserData. subst r. now rewrite Hnone.
  - intros ref secret data Hsome Hget Hdata. apply Hsubmitted.
    unfold getCustomUserData. subst r.
    now rewrite Hsome, Hget, Hdata.
  - intros project zone instance Hin.
    destruct (getCustomUserData coreClient r) as [userData [err |]] eqn:Hud.
    + subst made.
      rewrite (create_not_submitted cs coreClient s userData err Hud) in Hin.
      destruct Hin as [Hin | []]. discriminate.
    + exists userData. split; [reflexivity |].
      destruct (create_submitted cs coreClient s userData Hud)
        as (more & Hmade & Hmore).
      subst made. rewrite Hmade in Hin. destruct Hin as [Hin | Hin].
      * injection Hin as _ _ <-. eexists. split; reflexivity.
      * exfalso.
        assert (Hf : In (CallInstancesInsert project zone instance)
                       (List.filter isInstancesInsert more)).
        { apply List.filter_In. split; [exact Hin | reflexivity]. }
        rewrite Hmore in Hf. destruct Hf.
Qed.

Lemma create_user_data_witness :
  (exists instance,
     List.filter isInstancesInsert
       (callsSince Fixture.state
          (snd (create (Fixture.service 0) Fixture.noSecrets Fixture.state)))
     = [CallInstancesInsert "testProject" "us-east1-b" instance]
     /\ exists items,
          compute.Instance_Metadata instance
          = Some {| compute.Metadata_Items := items |}
          /\ head items = Some {| compute.Key := "user-data";
                                  compute.Value := Some "" |})
  /\ (exists instance,
        List.filter isInstancesInsert
          (callsSince (Fixture.stateOf (Fixture.withSecret Fixture.spec))
             (snd (create (Fixture.service 0) Fixture.oneSecret
                     (Fixture.stateOf (Fixture.withSecret Fixture.spec)))))
        = [CallInstancesInsert "testProject" "us-east1-b" instance]
        /\ exists items,
             compute.Instance_Metadata instance
             = Some {| compute.Metadata_Items := items |}
             /\ head items = Some {| compute.Key := "user-data";
                                     compute.Value := Some "TWFu" |}).
Proof.
  split.
  - apply (proj1 (create_user_data (Fixture.service 0) Fixture.noSecrets
                    Fixture.state)).
    reflexivity.
  - apply (proj1 (proj2 (create_user_data (Fixture.service 0)
                           Fixture.oneSecret
                           (Fixture.stateOf
                              (Fixture.withSecret Fixture.spec))))
             {| LocalObjectReference_Name := "user-data" |}
             {| Data := {[ userDataSecretKey := [x4d; x61; x6e]%byte ]} |}
             [x4d; x61; x6e]%byte);
      reflexivity.
Defined.

(** C5.  For a spec with two disks and one network interface, the one
    descriptor [create] submits has exactly two attached disks, in the
    order of the spec, and each carries the boot flag (and the
    auto-delete flag) of the spec disk in its place, whichever of the
    two is the boot disk; and it has exactly one network interface,
    whose access configurations are the single zero-valued one (an
    ephemeral external address). *)
Theorem create_disks_and_interfaces (cs : GCPComputeService)
    (coreClient : Client) (s : State) (first second : GCPDisk)
    (nic : GCPNetworkInterface) (userData : string) :
  let r := scope s in
  Disks (providerSpec r) = [first; second] ->
  NetworkInterfaces (providerSpec r) = [nic] ->
  getCustomUserData coreClient r = (userData, None) ->
  exists instance disk1 disk2 interface,
    List.filter isInstancesInsert
      (callsSince s (snd (create cs coreClient s)))
    = [CallInstancesInsert (projectID r) (Zone (providerSpec r)) instance]
    /\ compute.Instance_Disks instance = [disk1; disk2]
    /\ compute.Boot disk1 = GCPDisk_Boot first
    /\ compute.Boot disk2 = GCPDisk_Boot second
    /\ compute.AutoDelete disk1 = GCPDisk_AutoDelete first
    /\ compute.AutoDelete disk2 = GCPDisk_AutoDelete second
    /\ compute.Instance_NetworkInterfaces instance = [interface]
    /\ compute.AccessConfigs interface = [compute.zeroAccessConfig].
Proof.
  intros r Hdisks Hnics Hud.
  destruct (create_submitted cs coreClient s userData Hud)
    as (more & Hmade & Hmore).
  exists (instanceOf r userData). rewrite Hmade.
  cbn [List.filter isInstancesInsert]. rewrite Hmore.
  unfold instanceOf, disksOf, networkInterfacesOf.
  cbn [compute.Instance_Disks compute.Instance_NetworkInterfaces].
  subst r. rewrite Hdisks, Hnics. cbn [map].
  do 3 eexists. split; [reflexivity |].
  split; [reflexivity |]. cbn [compute.Boot compute.AutoDelete].
  repeat split.
Qed.

(** The boot disk first, and the boot disk second. *)
Lemma create_disks_and_interfaces_witness :
  (exists instance disk1 disk2 interface,
     List.filter isInstancesInsert
       (callsSince Fixture.state
          (snd (create (Fixture.service 0) Fixture.noSecrets Fixture.state)))
     = [CallInstancesInsert "testProject" "us-east1-b" instance]
     /\ compute.Instance_Disks instance = [disk1; disk2]
     /\ compute.Boot disk1 = true
     /\ compute.Boot disk2 = false
     /\ compute.AutoDelete disk1 = true
     /\ compute.AutoDelete disk2 = false
     /\ compute.Instance_NetworkInterfaces instance = [interface]
     /\ compute.AccessConfigs interface = [compute.zeroAccessConfig])
  /\ exists instance disk1 disk2 interface,
       List.filter isInstancesInsert
         (callsSince (Fixture.stateOf Fixture2.dataFirst)
            (snd (create (Fixture.service 0) Fixture.noSecrets
                    (Fixture.stateOf Fixture2.dataFirst))))
       = [CallInstancesInsert "testProject" "us-east1-b" instance]
       /\ compute.Instance_Disks instance = [disk1; disk2]
       /\ compute.Boot disk1 = false
       /\ compute.Boot disk2 = true
       /\ compute.AutoDelete disk1 = false
       /\ compute.AutoDelete disk2 = true
       /\ compute.Instance_NetworkInterfaces instance = [interface]
       /\ compute.AccessConfigs interface = [compute.zeroAccessConfig].
Proof.
  split.
  - apply (create_disks_and_interfaces (Fixture.service 0) Fixture.noSecrets
             Fixture.state Fixture.bootDisk Fixture.dataDisk
             Fixture.networkInterface ""); reflexivity.
  - apply (create_disks_and_interfaces (Fixture.service 0) Fixture.noSecrets
             (Fixture.stateOf Fixture2.dataFirst) Fixture.dataDisk
             Fixture.bootDisk Fixture.networkInterface ""); reflexivity.
Defined.

(** ** The state projector *)

Lemma reconcile_unfold (cs : GCPComputeService) (s : State) :
  reconcileMachineWithCloudState cs s =
  match instanceReply cs s (calls s) with
  | inr err =>
      (Some (ErrorString
         ("failed to get instance via compute service: " +:+ Error err)),
       logCall (targetGet s) s)
  | inl freshInstance =>
      match compute.Instance_NetworkInterfaces freshInstance with
      | [] =>
          (Some (ErrorString
             ("could not find network interfaces for instance "
              +:+ quote (compute.Instance_Name freshInstance))),
           logCall (targetGet s) s)
      | networkInterface :: _ =>
          (None,
           setScope
             (writeStatus (nodeAddressesOf networkInterface) freshInstance
                (scope s))
             (logCall (targetGet s) s))
      end
  end.
Proof.
  unfold reconcileMachineWithCloudState, bind, gets, callInstancesGet,
    instanceReply.
  destruct (InstancesGet cs (calls s) _ _ _) as [inst | err];
    [| reflexivity].
  destruct (compute.Instance_NetworkInterfaces inst); reflexivity.
Qed.

Lemma persisted_scope (s s' : State) :
  scope s' = scope s -> persisted s' = persisted s.
Proof. unfold persisted. now intros ->. Qed.

(** C6.  When [InstancesGet] returns an instance, the refresh fails if
    the instance has no network interface, and leaves the status as it
    was.  Otherwise it succeeds, and the addresses become the internal
    IP of the first interface followed by one ExternalIP entry for each
    of its access configurations, in their order; the provider status
    becomes the instance's name and status, and the machine's provider
    ID the one of the scope.  [update] is this refresh, and [create]
    ends with it. *)
Theorem refresh_outcomes (cs : GCPComputeService) (s : State)
    (freshInstance : compute.Instance) :
  instanceReply cs s (calls s) = inl freshInstance ->
  let result := reconcileMachineWithCloudState cs s in
  let r' := scope (snd result) in
  (compute.Instance_NetworkInterfaces freshInstance = [] ->
   (exists err, fst result = Some err)
   /\ persisted (snd result) = persisted s)
  /\ (forall networkInterface rest,
        compute.Instance_NetworkInterfaces freshInstance
        = networkInterface :: rest ->
        fst result = None
        /\ Addresses (Status (machine r'))
           = {| Type_ := "InternalIP";
                Address := compute.NetworkIP networkInterface |}
             :: map (fun config =>
                       {| Type_ := "ExternalIP";
                          Address := compute.AccessConfig_NatIP config |})
                    (compute.AccessConfigs networkInterface)
        /\ InstanceState (providerStatus r')
           = Some (compute.Instance_Status freshInstance)
        /\ InstanceID (providerStatus r')
           = Some (compute.Instance_Name freshInstance)
        /\ ProviderID (Spec (machine r')) = Some (providerID (scope s))
        /\ providerID r' = providerID (scope s))
  /\ update cs s = result
  /\ (forall coreClient s0,
        snd (create cs coreClient s0)
        = snd (reconcileMachineWithCloudState cs
                 (snd (createBody cs coreClient s0)))).
Proof.
  intros Hget result r'. subst r' result. rewrite reconcile_unfold, Hget.
  split; [| split; [| split]].
  - intros Hnone. rewrite Hnone. cbn [fst snd].
    split; [eexists; reflexivity | reflexivity].
  - intros networkInterface rest Hsome. rewrite Hsome. cbn [fst snd].
    repeat split.
  - unfold update. now rewrite reconcile_unfold, Hget.
  - intros coreClient s0. now rewrite create_unfold.
Qed.

Lemma refresh_outcomes_witness :
  let s' :=
    snd (reconcileMachineWithCloudState (Fixture.service 0) Fixture.state) in
  fst (reconcileMachineWithCloudState (Fixture.service 0) Fixture.state)
  = None
  /\ Addresses (Status (machine (scope s')))
     = [ {| Type_ := "InternalIP"; Address := "10.0.0.15" |};
         {| Type_ := "ExternalIP"; Address := "35.243.147.143" |} ]
  /\ InstanceState (providerStatus (scope s')) = Some "RUNNING"
  /\ InstanceID (providerStatus (scope s')) = Some "testInstance"
  /\ ProviderID (Spec (machine (scope s')))
     = Some "gce://testProject/us-east1-b/testInstance"
  /\ providerID (scope s') = "gce://testProject/us-east1-b/testInstance".
Proof.
  exact (proj1 (proj2 (refresh_outcomes (Fixture.service 0) Fixture.state
                         Fixture.instance eq_refl))
           _ [] eq_refl).
Defined.

(** Writing the status of the same instance twice writes the same. *)
Lemma persisted_reconcile (cs : GCPComputeService) (s : State) :
  persisted (snd (reconcileMachineWithCloudState cs s)) =
  match instanceReply cs s (calls s) with
  | inr _ => persisted s
  | inl freshInstance =>
      match compute.Instance_NetworkInterfaces freshInstance with
      | [] => persisted s
      | networkInterface :: _ =>
          projected (scope s) freshInstance networkInterface
      end
  end.
Proof.
  rewrite reconcile_unfold.
  destruct (instanceReply cs s (calls s)) as [inst | err]; [| reflexivity].
  destruct (compute.Instance_NetworkInterfaces inst); reflexivity.
Qed.

(** The refresh changes nothing of the scope but the status. *)
Lemma reconcile_target (cs : GCPComputeService) (s : State) :
  let s' := snd (reconcileMachineWithCloudState cs s) in
  projectID (scope s') = projectID (scope s)
  /\ providerID (scope s') = providerID (scope s)
  /\ providerSpec (scope s') = providerSpec (scope s)
  /\ Meta (machine (scope s')) = Meta (machine (scope s))
  /\ events s' = events s /\ clock s' = clock s.
Proof.
  cbv zeta. rewrite reconcile_unfold.
  destruct (instanceReply cs s (calls s)) as [inst | err];
    [| repeat split].
  destruct (compute.Instance_NetworkInterfaces inst); repeat split.
Qed.

(** C7.  [update] is idempotent on an unchanged remote instance: when
    [InstancesGet] replies to the second [update] what it replied to the
    first, the second returns what the first returned and leaves the
    addresses, the provider ID and the provider status as the first left
    them. *)
Theorem update_idempotent (cs : GCPComputeService) (s : State) :
  let first := update cs s in
  let second := update cs (snd first) in
  instanceReply cs s (calls (snd first)) = instanceReply cs s (calls s) ->
  fst second = fst first
  /\ persisted (snd second) = persisted (snd first).
Proof.
  intros first second Hsame. subst first second. unfold update in *.
  destruct (reconcile_target cs s) as (Hp & Hid & Hps & Hmeta & _).
  cbv zeta in Hp, Hid, Hps, Hmeta.
  assert (Hreply :
            instanceReply cs (snd (reconcileMachineWithCloudState cs s))
              (calls (snd (reconcileMachineWithCloudState cs s)))
            = instanceReply cs s (calls s)).
  { rewrite <- Hsame. unfold instanceReply. now rewrite Hp, Hps, Hmeta. }
  split.
  - rewrite (reconcile_unfold cs (snd _)), Hreply.
    rewrite (reconcile_unfold cs s).
    destruct (instanceReply cs s (calls s)) as [inst | err];
      [| reflexivity].
    destruct (compute.Instance_NetworkInterfaces inst); reflexivity.
  - rewrite (persisted_reconcile cs (snd _)), Hreply.
    rewrite (persisted_reconcile cs s).
    destruct (instanceReply cs s (calls s)) as [inst | err];
      [| reflexivity].
    destruct (compute.Instance_NetworkInterfaces inst); [reflexivity |].
    unfold projected. now rewrite Hid.
Qed.

Lemma update_idempotent_witness :
  fst (update (Fixture.service 0)
         (snd (update (Fixture.service 0) Fixture.state)))
  = fst (update (Fixture.service 0) Fixture.state)
  /\ persisted (snd (update (Fixture.service 0)
                       (snd (update (Fixture.service 0) Fixture.state))))
     = persisted (snd (update (Fixture.service 0) Fixture.state)).
Proof.
  apply (update_idempotent (Fixture.service 0) Fixture.state). reflexivity.
Defined.

(** ** The status is written only after a successful read *)

Lemma exists_scope (cs : GCPComputeService) (s : State) :
  scope (snd (exists_ cs s)) = scope s
  /\ events (snd (exists_ cs s)) = events s.
Proof.
  rewrite exists_unfold.
  destruct (zoneReply cs s); [| split; reflexivity]. cbv zeta.
  destruct (instanceReply cs s _) as [i | err]; [split; reflexivity |].
  destruct (isNotFoundError err); split; reflexivity.
Qed.

Lemma wait_scope (cs : GCPComputeService) (s : State)
    (zone operationName : string) :
  scope (snd (waitUntilOperationCompleted cs zone operationName s))
  = scope s
  /\ events (snd (waitUntilOperationCompleted cs zone operationName s))
     = events s.
Proof.
  destruct (wait_polled cs s zone operationName) as (k & _ & ->).
  split; reflexivity.
Qed.

Lemma delete_scope (cs : GCPComputeService) (s : State) :
  scope (snd (delete cs s)) = scope s
  /\ events (snd (delete cs s)) = events s.
Proof.
  unfold delete, bind, gets, callInstancesDelete.
  pose proof (exists_scope cs s) as Hex.
  destruct (exists_ cs s) as [[found [err |]] s1]; cbn [snd] in Hex;
    [destruct found; exact Hex |].
  destruct found; [| exact Hex].
  destruct (InstancesDelete cs (calls s1) _ _ _) as [operation | err];
    [| exact Hex].
  pose proof (wait_scope cs
                (logCall (CallInstancesDelete (projectID (scope s))
                            (Zone (providerSpec (scope s)))
                            (Name (Meta (machine (scope s))))) s1)
                (Zone (providerSpec (scope s)))
                (compute.Operation_Name operation)) as Hwait.
  destruct (waitUntilOperationCompleted cs _ _ _) as [[op [err |]] s3];
    cbn [snd ret scope events logCall] in *; destruct Hex, Hwait;
    split; congruence.
Qed.

(** What the state projector does to the persisted status. *)
Lemma reconcile_status (cs : GCPComputeService) (s : State) :
  let read := instanceReply cs s (calls s) in
  let s' := snd (reconcileMachineWithCloudState cs s) in
  (forall err, read = inr err -> persisted s' = persisted s)
  /\ (forall freshInstance,
        read = inl freshInstance ->
        compute.Instance_NetworkInterfaces freshInstance = [] ->
        persisted s' = persisted s)
  /\ (persisted s' = persisted s
      \/ exists freshInstance networkInterface rest,
           read = inl freshInstance
           /\ compute.Instance_NetworkInterfaces freshInstance
              = networkInterface :: rest
           /\ persisted s'
              = projected (scope s) freshInstance networkInterface).
Proof.
  cbv zeta. rewrite persisted_reconcile.
  destruct (instanceReply cs s (calls s)) as [inst | err].
  - destruct (compute.Instance_NetworkInterfaces inst) as [| nic rest] eqn:E.
    + split; [reflexivity |]. split; [reflexivity |]. now left.
    + split; [discriminate |]. split.
      * intros ? [= <-] Hnone. congruence.
      * right. exists inst, nic, rest. split; [reflexivity |].
        split; [exact E | reflexivity].
  - split; [reflexivity |]. split; [discriminate |]. now left.
Qed.

(** C8.  The addresses, the provider ID and the provider status change
    only after a successful read.  [exists] and [delete] never change
    them.  [update] leaves them as they were when [InstancesGet] fails
    and when the instance it returns has no network interface; if they
    change at all, [InstancesGet] has returned an instance with an
    interface and they are what the projector derives from it, whole.
    The body of [create] does not change them, and the refresh that ends
    [create] obeys the same rule. *)
Theorem status_written_after_read_only (cs : GCPComputeService)
    (coreClient : Client) (s : State) :
  let rule (s0 s' : State) : Prop :=
    let read := instanceReply cs s0 (calls s0) in
    (forall err, read = inr err -> persisted s' = persisted s0)
    /\ (forall freshInstance,
          read = inl freshInstance ->
          compute.Instance_NetworkInterfaces freshInstance = [] ->
          persisted s' = persisted s0)
    /\ (persisted s' = persisted s0
        \/ exists freshInstance networkInterface rest,
             read = inl freshInstance
             /\ compute.Instance_NetworkInterfaces freshInstance
                = networkInterface :: rest
             /\ persisted s'
                = projected (scope s0) freshInstance networkInterface) in
  persisted (snd (exists_ cs s)) = persisted s
  /\ persisted (snd (delete cs s)) = persisted s
  /\ rule s (snd (update cs s))
  /\ persisted (snd (createBody cs coreClient s)) = persisted s
  /\ rule (snd (createBody cs coreClient s)) (snd (create cs coreClient s)).
Proof.
  intros rule. subst rule. cbv beta.
  split; [| split; [| split; [| split]]].
  - apply persisted_scope, exists_scope.
  - apply persisted_scope, delete_scope.
  - apply reconcile_status.
  - apply persisted_scope, createBody_frame.
  - rewrite create_unfold. cbn [snd]. apply reconcile_status.
Qed.

Lemma status_written_after_read_only_witness :
  persisted
    (snd (update (Fixture.withInstancesGet (inr Fixture.notFound)
                    (Fixture.service 0))
            (snd (update (Fixture.service 0) Fixture.state))))
  = persisted (snd (update (Fixture.service 0) Fixture.state)).
Proof.
  apply (proj1 (proj1 (proj2 (proj2
           (status_written_after_read_only
              (Fixture.withInstancesGet (inr Fixture.notFound)
                 (Fixture.service 0))
              Fixture.noSecrets
              (snd (update (Fixture.service 0) Fixture.state))))))
           Fixture.notFound).
  reflexivity.
Defined.

(** ** The deferred refresh of [create] *)

(** The body of [create] asks the compute service for [InstancesInsert]
    and [ZoneOperationsGet] only. *)
Lemma createBody_ext (cs cs' : GCPComputeService) (coreClient : Client)
    (s : State) :
  InstancesInsert cs' = InstancesInsert cs ->
  ZoneOperationsGet cs' = ZoneOperationsGet cs ->
  createBody cs' coreClient s = createBody cs coreClient s.
Proof.
  intros Hinsert Hfetch.
  unfold createBody, bind, gets, callInstancesInsert.
  cbn [validateMachine]. rewrite Hinsert.
  destruct (getCustomUserData coreClient (scope s)) as [userData [err |]];
    [reflexivity |].
  destruct (InstancesInsert cs (calls s) _ _ _) as [operation | err];
    [| reflexivity].
  now rewrite (wait_ext cs cs' _ _ _ Hfetch).
Qed.

(** C9.  [create] always ends with the refresh: on every path of its
    body, also when the operation poll has failed, the last call it
    makes is the [InstancesGet] of the state projector, made after the
    body has returned.  What the refresh returns is dropped: [create]
    returns what its body returned, so whatever [InstancesGet] replies,
    the value [create] returns is the same. *)
Theorem create_refresh_swallowed (cs : GCPComputeService)
    (coreClient : Client) (s : State) :
  let body := createBody cs coreClient s in
  let zone := Zone (providerSpec (scope s)) in
  callsSince (snd body) (snd (create cs coreClient s)) = [targetGet s]
  /\ last (calls (snd (create cs coreClient s))) = Some (targetGet s)
  /\ snd (create cs coreClient s)
     = snd (reconcileMachineWithCloudState cs (snd body))
  /\ fst (create cs coreClient s) = fst body
  /\ (forall userData operation err,
        getCustomUserData coreClient (scope s) = (userData, None) ->
        InstancesInsert cs (calls s) (projectID (scope s)) zone
          (instanceOf (scope s) userData) = inl operation ->
        snd (fst (waitUntilOperationCompleted cs zone
                    (compute.Operation_Name operation)
                    (logCall (CallInstancesInsert (projectID (scope s)) zone
                                (instanceOf (scope s) userData)) s)))
        = Some err ->
        (exists msg, fst (create cs coreClient s) = Some (ErrorString msg)
                     /\ occursIn (Error err) msg)
        /\ last (calls (snd (create cs coreClient s)))
           = Some (targetGet s))
  /\ (forall cs',
        InstancesInsert cs' = InstancesInsert cs ->
        ZoneOperationsGet cs' = ZoneOperationsGet cs ->
        fst (create cs' coreClient s) = fst (create cs coreClient s)).
Proof.
  intros body zone. subst body zone.
  assert (Hlast : last (calls (snd (create cs coreClient s)))
                  = Some (targetGet s)).
  { rewrite create_calls. apply last_snoc. }
  split; [| split; [| split; [| split; [| split]]]].
  - unfold callsSince. rewrite create_calls. apply drop_app_length.
  - exact Hlast.
  - now rewrite create_unfold.
  - now rewrite create_unfold.
  - intros userData operation err Hud Hop Hwait. split; [| exact Hlast].
    rewrite create_unfold. cbn [fst].
    unfold createBody, bind, gets, callInstancesInsert.
    cbn [validateMachine]. rewrite Hud, Hop.
    destruct (waitUntilOperationCompleted cs _ _ _) as [[op werr] s3].
    cbn [fst snd] in Hwait. subst werr. cbn [ret fst].
    eexists. split; [reflexivity |]. auto 10 with occurs.
  - intros cs' Hinsert Hfetch.
    rewrite !create_unfold. cbn [fst].
    now rewrite (createBody_ext cs cs' coreClient s Hinsert Hfetch).
Qed.

(** The operation fails; the refresh is still made.  And [create]
    succeeds all the same when the refresh cannot find the instance. *)
Lemma create_refresh_swallowed_witness :
  ((exists msg,
      fst (create (Fixture.withZoneOperationsGet
                     (inl Fixture.failedOperation) (Fixture.service 0))
             Fixture.noSecrets Fixture.state)
      = Some (ErrorString msg)
      /\ occursIn "the following errors occurred: [{QUOTA_EXCEEDED  Quota CPUS exceeded [] []}]"
           msg)
   /\ last (calls (snd (create (Fixture.withZoneOperationsGet
                                  (inl Fixture.failedOperation)
                                  (Fixture.service 0))
                          Fixture.noSecrets Fixture.state)))
      = Some (targetGet Fixture.state))
  /\ fst (create Fixture.absent Fixture.noSecrets Fixture.state)
     = fst (create (Fixture.service 0) Fixture.noSecrets Fixture.state).
Proof.
  split.
  - apply (proj1 (proj2 (proj2 (proj2 (proj2
             (create_refresh_swallowed
                (Fixture.withZoneOperationsGet
                   (inl Fixture.failedOperation) (Fixture.service 0))
                Fixture.noSecrets Fixture.state)))))
             "" (Fixture.operation "PENDING")
             (ErrorString
                "the following errors occurred: [{QUOTA_EXCEEDED  Quota CPUS exceeded [] []}]"));
      reflexivity.
  - apply (proj2 (proj2 (proj2 (proj2 (proj2
             (create_refresh_swallowed (Fixture.service 0)
                Fixture.noSecrets Fixture.state)))))
             Fixture.absent); reflexivity.
Defined.

(** ** Validation *)

Lemma createBody_outcomes (cs : GCPComputeService) (coreClient : Client)
    (s : State) :
  let body := createBody cs coreClient s in
  (fst body = None \/ exists msg, fst body = Some (ErrorString msg))
  /\ (events (snd body) = events s
      \/ events (snd body)
         = events s ++ [ {| eventtype := EventTypeNormal;
                            reason := "Created";
                            message := "Created Machine "
                                       +:+ Name (Meta (machine (scope s))) |} ]).
Proof.
  unfold createBody, bind, gets, callInstancesInsert.
  cbn [validateMachine].
  destruct (getCustomUserData coreClient (scope s)) as [userData [err |]];
    [split; [right; eexists |]; [reflexivity | now left] |].
  destruct (InstancesInsert cs (calls s) _ _ _) as [operation | err];
    [| split; [right; eexists |]; [reflexivity | now left]].
  pose proof (wait_scope cs
                (logCall (CallInstancesInsert (projectID (scope s))
                            (Zone (providerSpec (scope s)))
                            (instanceOf (scope s) userData)) s)
                (Zone (providerSpec (scope s)))
                (compute.Operation_Name operation)) as [_ Hevents].
  destruct (waitUntilOperationCompleted cs _ _ _) as [[op [err |]] s3];
    cbn [snd events logCall] in Hevents; cbn [ret fst snd].
  - split; [right; eexists; reflexivity | now left].
  - split; [now left |]. right.
    unfold Eventf, modify. cbn [ret snd fst events logEvent].
    now rewrite Hevents.
Qed.

(** C10.  [validateMachine] returns nil for every machine and every
    provider spec.  So [create] never returns a machine error (the
    invalid-configuration error of the validation branch) and never
    records the warning event of that branch: it returns nil or an
    error made by [fmt.Errorf], and records nothing or the "Created"
    event.  And every error of [exists] comes from a failed call to the
    compute service, never from validation. *)
Theorem validation_never_fails (cs : GCPComputeService)
    (coreClient : Client) (s : State) :
  (forall machine providerSpec, validateMachine machine providerSpec = None)
  /\ (forall Reason Message,
        fst (create cs coreClient s) <> Some (MachineError Reason Message))
  /\ (forall e,
        In e (events (snd (create cs coreClient s))) ->
        In e (events s) \/ eventtype e = EventTypeNormal)
  /\ (forall err,
        snd (fst (exists_ cs s)) = Some err ->
        exists msg,
          err = ErrorString msg
          /\ String.prefix "failed validating machine provider spec: " msg
             = false
          /\ ((exists zerr, zoneReply cs s = inr zerr)
              \/ (exists ierr,
                    instanceReply cs s (calls s ++ [targetZone s])
                    = inr ierr))).
Proof.
  split; [reflexivity |]. split; [| split].
  - intros Reason Message. rewrite create_unfold. cbn [fst].
    destruct (proj1 (createBody_outcomes cs coreClient s)) as [-> | [msg ->]];
      discriminate.
  - intros e. rewrite create_unfold. cbn [snd].
    rewrite (proj1 (proj2 (proj2 (proj2 (proj2
               (reconcile_target cs (snd (createBody cs coreClient s)))))))).
    destruct (proj2 (createBody_outcomes cs coreClient s)) as [-> | ->].
    + now left.
    + rewrite in_app_iff. intros [Hin | [<- | []]]; [now left | now right].
  - intros err. rewrite exists_unfold.
    destruct (zoneReply cs s) as [z | zerr].
    + cbv zeta.
      destruct (instanceReply cs s (calls s ++ [targetZone s]))
        as [i | ierr]; [discriminate |].
      destruct (isNotFoundError ierr); [discriminate |].
      intros [= <-]. eexists. split; [reflexivity |].
      split; [reflexivity | right; now exists ierr].
    + intros [= <-]. eexists. split; [reflexivity |].
      split; [reflexivity | left; now exists zerr].
Qed.

(** A zone lookup that fails with a 404 makes [exists] fail, with an
    error that names the zone, not the validation. *)
Lemma validation_never_fails_witness :
  exists msg,
    snd (fst (exists_ (Fixture.withZonesGet (inr Fixture.notFound)
                         (Fixture.service 0))
                Fixture.state))
    = Some (ErrorString msg)
    /\ String.prefix "failed validating machine provider spec: " msg = false.
Proof.
  destruct (proj2 (proj2 (proj2
              (validation_never_fails
                 (Fixture.withZonesGet (inr Fixture.notFound)
                    (Fixture.service 0))
                 Fixture.noSecrets Fixture.state)))
              (ErrorString
                 "unable to verify project/zone exists: testProject/us-east1-b; err: googleapi: Error 404: notFound")
              eq_refl) as (msg & Hmsg & Hprefix & _).
  exists msg. split; [| exact Hprefix].
  rewrite <- Hmsg. reflexivity.
Defined.

(** * Further properties *)

(** ** The poller is bounded and sound *)

(** X1.  Whatever the compute service replies and however the race at
    the deadline goes, the poller fetches the operation at least once
    and at most 37 times: at most 36 times when the tick on the deadline
    is lost to the timer, and once more, on the closed channel, when it
    is delivered.  It sleeps 5 seconds before each of the first 36
    fetches and not before fetch 37, so at most 180 seconds in all; it
    asks for nothing but that operation, and leaves the scope and the
    recorded events as they were. *)
Theorem poller_bounded (cs : GCPComputeService) (s : State)
    (zone operationName : string) :
  let s' := snd (waitUntilOperationCompleted cs zone operationName s) in
  exists fetches,
    (1 <= fetches <= 37)%nat
    /\ (lastTick s = false -> (fetches <= 36)%nat)
    /\ callsSince s s'
       = repeat (CallZoneOperationsGet (projectID (scope s)) zone
                   operationName) fetches
    /\ calls s' = calls s ++ callsSince s s'
    /\ clock s' = clock s + Z.min (5 * Z.of_nat fetches) 180
    /\ clock s' <= clock s + operationTimeOut
    /\ scope s' = scope s
    /\ events s' = events s.
Proof.
  cbv zeta.
  destruct (wait_polled cs s zone operationName) as (k & Hk & ->).
  rewrite allowedRuns_cases in Hk. exists k.
  assert (Hcalls :
            callsSince s (polled s zone operationName k)
            = repeat (CallZoneOperationsGet (projectID (scope s)) zone
                        operationName) k).
  { unfold callsSince, polled. cbn [calls]. apply drop_app_length. }
  rewrite Hcalls. unfold polled, operationRetryWait, operationTimeOut.
  cbn [calls clock scope events].
  split; [destruct (lastTick s); lia |].
  split; [intros Hlost; rewrite Hlost in Hk; lia |].
  split; [reflexivity |]. split; [reflexivity |].
  split; [reflexivity |]. split; [lia |]. split; reflexivity.
Qed.

(** X2.  The poller returns nil exactly when, among the fetches the
    schedule allows (36, or 37 when the tick on the deadline is
    delivered), the first reply that is not pending is an operation
    with status DONE and no [Error]; the operation it returns next to
    nil is that one.  It never reports success on an operation it has
    not seen done. *)
Theorem poller_success_iff (cs : GCPComputeService) (s : State)
    (zone operationName : string) :
  let reply := fetchReply cs s zone operationName in
  let wait := waitUntilOperationCompleted cs zone operationName s in
  (snd (fst wait) = None <->
   exists N op,
     (N < (if lastTick s then 37 else 36))%nat
     /\ (forall i, (i < N)%nat -> pending (reply i) = true)
     /\ reply N = inl op
     /\ compute.Operation_Status op = "DONE"
     /\ compute.Operation_Error op = None)
  /\ (snd (fst wait) = None ->
      exists op, fst (fst wait) = Some op
                 /\ compute.Operation_Status op = "DONE"
                 /\ compute.Operation_Error op = None).
Proof.
  intros reply wait. subst reply wait.
  rewrite <- allowedRuns_cases.
  assert (Hforward :
            snd (fst (waitUntilOperationCompleted cs zone operationName s))
            = None ->
            exists N op,
              (N < allowedRuns s)%nat
              /\ (forall i, (i < N)%nat ->
                    pending (fetchReply cs s zone operationName i) = true)
              /\ fetchReply cs s zone operationName N = inl op
              /\ compute.Operation_Status op = "DONE"
              /\ compute.Operation_Error op = None
              /\ fst (fst (waitUntilOperationCompleted cs zone
                             operationName s)) = Some op).
  { destruct (first_decisive
                (fun i => pending (fetchReply cs s zone operationName i))
                (allowedRuns s))
      as [Hall | (N & HN & Hbefore & Hat)].
    - rewrite (proj1 (wait_timeout_any cs s zone operationName Hall)).
      discriminate.
    - rewrite (wait_decided_any cs s zone operationName N HN Hbefore Hat).
      destruct (fetchReply cs s zone operationName N) as [op | err] eqn:HN';
        [| discriminate].
      cbn [pending] in Hat. apply negb_false_iff in Hat.
      apply String.eqb_eq in Hat.
      destruct (compute.Operation_Error op) eqn:Herr; [discriminate |].
      intros _. exists N, op. repeat split; assumption. }
  split; [split |].
  - intros Hnil.
    destruct (Hforward Hnil) as (N & op & HN & Hb & Hr & Hs & He & _).
    exists N, op. repeat split; assumption.
  - intros (N & op & HN & Hbefore & HreplyN & Hdone & Herr).
    rewrite (wait_decided_any cs s zone operationName N HN Hbefore).
    + rewrite HreplyN, Herr. reflexivity.
    + rewrite HreplyN. cbn [pending]. unfold terminal. rewrite Hdone.
      reflexivity.
  - intros Hnil.
    destruct (Hforward Hnil) as (N & op & _ & _ & _ & Hs & He & Hop).
    exists op. repeat split; assumption.
Qed.

Lemma poller_success_iff_witness :
  (exists op,
     fst (fst (waitUntilOperationCompleted (Fixture.service 2) "us-east1-b"
                 "operation-1" Fixture.state)) = Some op
     /\ compute.Operation_Status op = "DONE"
     /\ compute.Operation_Error op = None)
  /\ exists op,
       fst (fst (waitUntilOperationCompleted (Fixture.service 36)
                   "us-east1-b" "operation-1" Fixture2.tickState))
       = Some op
       /\ compute.Operation_Status op = "DONE"
       /\ compute.Operation_Error op = None.
Proof.
  split.
  - apply (proj2 (poller_success_iff (Fixture.service 2) Fixture.state
                    "us-east1-b" "operation-1")).
    reflexivity.
  - apply (proj2 (poller_success_iff (Fixture.service 36) Fixture2.tickState
                    "us-east1-b" "operation-1")).
    reflexivity.
Defined.

(** ** [create], path by path *)

Lemma createBody_unfold (cs : GCPComputeService) (coreClient : Client)
    (s : State) :
  createBody cs coreClient s =
  match getCustomUserData coreClient (scope s) with
  | (_, Some err) =>
      (Some (ErrorString
         ("error getting custom user data: " +:+ Error err)), s)
  | (userData, None) =>
      let s1 := logCall (targetInsert s userData) s in
      match InstancesInsert cs (calls s) (projectID (scope s))
              (Zone (providerSpec (scope s)))
              (instanceOf (scope s) userData) with
      | inr err =>
          (Some (ErrorString
             ("failed to create instance via compute service: "
              +:+ Error err)), s1)
      | inl operation =>
          let wait :=
            waitUntilOperationCompleted cs (Zone (providerSpec (scope s)))
              (compute.Operation_Name operation) s1 in
          match snd (fst wait) with
          | Some err =>
              (Some (ErrorString
                 ("failed to wait for create operation via compute service. Operation status: "
                  +:+ fmtOperation (fst (fst wait)) +:+ ". Error: "
                  +:+ Error err)), snd wait)
          | None => (None, logEvent (createdEvent s) (snd wait))
          end
      end
  end.
Proof.
  unfold createBody, bind, gets, callInstancesInsert, targetInsert.
  cbn [validateMachine].
  destruct (getCustomUserData coreClient (scope s)) as [userData [err |]];
    [reflexivity |].
  destruct (InstancesInsert cs (calls s) _ _ _) as [operation | err];
    [| reflexivity].
  cbv zeta.
  destruct (waitUntilOperationCompleted cs _ _ _) as [[op [err |]] s3];
    reflexivity.
Qed.

Lemma reconcile_events_clock (cs : GCPComputeService) (s : State) :
  events (snd (reconcileMachineWithCloudState cs s)) = events s
  /\ clock (snd (reconcileMachineWithCloudState cs s)) = clock s.
Proof.
  destruct (reconcile_target cs s) as (_ & _ & _ & _ & He & Hc).
  split; assumption.
Qed.

(** X3.  [create] returns nil exactly when the user data could be read,
    [InstancesInsert] returned an operation and the poll of that
    operation returned nil.  The "Created" event is recorded exactly
    then, once and last; on every failure the recorder receives
    nothing. *)
Theorem create_success_iff (cs : GCPComputeService) (coreClient : Client)
    (s : State) :
  let result := create cs coreClient s in
  let zone := Zone (providerSpec (scope s)) in
  (fst result = None <->
   exists userData operation,
     getCustomUserData coreClient (scope s) = (userData, None)
     /\ InstancesInsert cs (calls s) (projectID (scope s)) zone
          (instanceOf (scope s) userData) = inl operation
     /\ snd (fst (waitUntilOperationCompleted cs zone
                    (compute.Operation_Name operation)
                    (logCall (targetInsert s userData) s))) = None)
  /\ (fst result = None ->
      events (snd result)
      = events s ++ [ {| eventtype := "Normal"; reason := "Created";
                         message := "Created Machine "
                                    +:+ Name (Meta (machine (scope s))) |} ])
  /\ (forall err, fst result = Some err -> events (snd result) = events s).
Proof.
  intros result zone. subst result zone. rewrite create_unfold.
  cbn [fst snd].
  rewrite (proj1 (reconcile_events_clock cs _)).
  rewrite createBody_unfold.
  destruct (getCustomUserData coreClient (scope s)) as [userData [uerr |]].
  { cbn [fst snd]. split; [| split].
    - split; [discriminate | intros (? & ? & [=] & _)].
    - discriminate.
    - reflexivity. }
  cbv zeta.
  destruct (InstancesInsert cs (calls s) _ _ _) as [operation | ierr]
    eqn:Hinsert.
  2:{ cbn [fst snd logCall events]. split; [| split].
      - split; [discriminate |].
        intros (? & ? & [= <-] & Hi & _). congruence.
      - discriminate.
      - reflexivity. }
  pose proof (wait_scope cs (logCall (targetInsert s userData) s)
                (Zone (providerSpec (scope s)))
                (compute.Operation_Name operation)) as [_ Hevents].
  cbn [events logCall] in Hevents.
  destruct (snd (fst (waitUntilOperationCompleted cs _ _ _)))
    as [werr |] eqn:Hwait; cbn [fst snd].
  - split; [| split].
    + split; [discriminate |].
      intros (ud & op & [= <-] & Hi & Hnil).
      rewrite Hinsert in Hi. injection Hi as <-. congruence.
    + discriminate.
    + intros _ _. exact Hevents.
  - split; [| split].
    + split; [| reflexivity].
      intros _. exists userData, operation.
      split; [reflexivity |]. split; [exact Hinsert | exact Hwait].
    + intros _. cbn [events logEvent]. now rewrite Hevents.
    + discriminate.
Qed.

Lemma create_success_iff_witness :
  events (snd (create (Fixture.service 1) Fixture.noSecrets Fixture.state))
  = [ {| eventtype := "Normal"; reason := "Created";
         message := "Created Machine testInstance" |} ]
  /\ events (snd (create (Fixture2.withInstancesInsert
                            (inr Fixture2.quotaExceeded)
                            (Fixture.service 1))
                    Fixture.noSecrets Fixture.state)) = [].
Proof.
  split.
  - apply (proj1 (proj2 (create_success_iff (Fixture.service 1)
                           Fixture.noSecrets Fixture.state))).
    reflexivity.
  - eapply (proj2 (proj2 (create_success_iff
                            (Fixture2.withInstancesInsert
                               (inr Fixture2.quotaExceeded)
                               (Fixture.service 1))
                            Fixture.noSecrets Fixture.state))).
    reflexivity.
Defined.

Lemma occursIn_prefix3 (a b c d : string) :
  occursIn (a +:+ b +:+ c) (a +:+ b +:+ c +:+ d).
Proof. exists "", d. cbn [String.append]. now rewrite !append_assoc. Qed.

(** X4.  [getCustomUserData] fails exactly when the spec names a secret
    and either the client cannot get it or it holds nothing under the
    key [userData]; the data it returns next to an error is empty.  The
    error of a failed get quotes the secret's name and namespace and
    keeps the client's error; the error of a missing key quotes the
    key.  Other keys of the secret are not looked at. *)
Theorem getCustomUserData_outcomes (coreClient : Client) (r : machineScope) :
  let result := getCustomUserData coreClient r in
  let namespace := Namespace (Meta (machine r)) in
  (UserDataSecret (providerSpec r) = None -> result = ("", None))
  /\ (forall ref,
        UserDataSecret (providerSpec r) = Some ref ->
        let name := LocalObjectReference_Name ref in
        (forall err,
           Get coreClient namespace name = inr err ->
           exists msg,
             result = ("", Some (ErrorString msg))
             /\ occursIn (Error err) msg
             /\ occursIn (quote name) msg
             /\ occursIn (quote namespace) msg)
        /\ (forall secret,
              Get coreClient namespace name = inl secret ->
              match Data secret !! "userData" with
              | Some data => result = (base64.EncodeToString data, None)
              | None =>
                  exists msg,
                    result = ("", Some (ErrorString msg))
                    /\ occursIn (quote "userData") msg
                    /\ occursIn (namespace +:+ "/" +:+ name) msg
              end))
  /\ (snd result <> None -> fst result = "").
Proof.
  intros result namespace. subst result namespace.
  unfold getCustomUserData. split; [| split].
  - now intros ->.
  - intros ref ->. cbv zeta. split.
    + intros err ->. eexists. split; [reflexivity |].
      split; [| split]; auto 12 with occurs.
    + intros secret ->. unfold userDataSecretKey.
      destruct (Data secret !! "userData"); [reflexivity |].
      eexists. split; [reflexivity |].
      split; [auto 12 with occurs |].
      apply occursIn_prepend, occursIn_prefix3.
  - destruct (UserDataSecret (providerSpec r)) as [ref |];
      [| intros H; now contradiction H].
    destruct (Get coreClient _ _) as [secret | err]; [| reflexivity].
    destruct (Data secret !! userDataSecretKey); [| reflexivity].
    intros H. now contradiction H.
Qed.

Lemma getCustomUserData_outcomes_witness :
  getCustomUserData Fixture.noSecrets (Fixture.scopeOf Fixture.spec)
  = ("", None)
  /\ getCustomUserData Fixture.oneSecret
       (Fixture.scopeOf (Fixture.withSecret Fixture.spec))
     = ("TWFu", None)
  /\ exists msg,
       getCustomUserData Fixture2.otherSecret
         (Fixture.scopeOf (Fixture.withSecret Fixture.spec))
       = ("", Some (ErrorString msg))
       /\ occursIn (quote "userData") msg
       /\ occursIn ("" +:+ "/" +:+ "user-data") msg.
Proof.
  split; [| split].
  - apply (proj1 (getCustomUserData_outcomes Fixture.noSecrets
                    (Fixture.scopeOf Fixture.spec))).
    reflexivity.
  - exact (proj2 (proj1 (proj2 (getCustomUserData_outcomes
                                  Fixture.oneSecret
                                  (Fixture.scopeOf
                                     (Fixture.withSecret Fixture.spec))))
                    _ eq_refl) _ eq_refl).
  - exact (proj2 (proj1 (proj2 (getCustomUserData_outcomes
                                  Fixture2.otherSecret
                                  (Fixture.scopeOf
                                     (Fixture.withSecret Fixture.spec))))
                    _ eq_refl) _ eq_refl).
Defined.

(** X5.  When the user data cannot be read, [create] asks the compute
    service for nothing but the deferred refresh: no instance is
    inserted, no time is spent and no event is recorded.  The error it
    returns starts with "error getting custom user data: " and keeps
    the text of the cause. *)
Theorem create_without_user_data (cs : GCPComputeService)
    (coreClient : Client) (s : State) (userData : string) (err : error) :
  getCustomUserData coreClient (scope s) = (userData, Some err) ->
  let result := create cs coreClient s in
  fst result
  = Some (ErrorString ("error getting custom user data: " +:+ Error err))
  /\ callsSince s (snd result) = [targetGet s]
  /\ List.filter isInstancesInsert (callsSince s (snd result)) = []
  /\ clock (snd result) = clock s
  /\ events (snd result) = events s.
Proof.
  intros Hud result. subst result.
  rewrite (create_not_submitted cs coreClient s userData err Hud).
  rewrite create_unfold. cbn [fst snd].
  destruct (reconcile_events_clock cs (snd (createBody cs coreClient s)))
    as [-> ->].
  rewrite createBody_unfold, Hud. repeat split.
Qed.

Lemma create_without_user_data_witness :
  callsSince (Fixture.stateOf (Fixture.withSecret Fixture.spec))
    (snd (create (Fixture.service 1) Fixture.noSecrets
            (Fixture.stateOf (Fixture.withSecret Fixture.spec))))
  = [targetGet (Fixture.stateOf (Fixture.withSecret Fixture.spec))].
Proof.
  eapply (proj1 (proj2 (create_without_user_data (Fixture.service 1)
                          Fixture.noSecrets
                          (Fixture.stateOf (Fixture.withSecret Fixture.spec))
                          _ _ eq_refl))).
Defined.

(** X6.  When [InstancesInsert] fails, [create] does not poll: it makes
    the insert call and the deferred refresh and nothing else, spends no
    time, records no event, and returns an error that keeps the text of
    the provider's error. *)
Theorem create_insert_failed (cs : GCPComputeService) (coreClient : Client)
    (s : State) (userData : string) (err : error) :
  getCustomUserData coreClient (scope s) = (userData, None) ->
  InstancesInsert cs (calls s) (projectID (scope s))
    (Zone (providerSpec (scope s))) (instanceOf (scope s) userData)
  = inr err ->
  let result := create cs coreClient s in
  fst result
  = Some (ErrorString
            ("failed to create instance via compute service: "
             +:+ Error err))
  /\ callsSince s (snd result) = [targetInsert s userData; targetGet s]
  /\ clock (snd result) = clock s
  /\ events (snd result) = events s.
Proof.
  intros Hud Hinsert result. subst result.
  unfold callsSince. rewrite create_calls. rewrite create_unfold.
  cbn [fst snd].
  destruct (reconcile_events_clock cs (snd (createBody cs coreClient s)))
    as [-> ->].
  rewrite createBody_unfold, Hud. cbv zeta. rewrite Hinsert.
  cbn [fst snd calls logCall clock events].
  repeat split. rewrite <- app_assoc. apply drop_app_length.
Qed.

Lemma create_insert_failed_witness :
  fst (create (Fixture2.withInstancesInsert (inr Fixture2.quotaExceeded)
                 (Fixture.service 1))
         Fixture.noSecrets Fixture.state)
  = Some (ErrorString
            "failed to create instance via compute service: googleapi: Error 403: quotaExceeded").
Proof.
  apply (proj1 (create_insert_failed
                  (Fixture2.withInstancesInsert (inr Fixture2.quotaExceeded)
                     (Fixture.service 1))
                  Fixture.noSecrets Fixture.state "" Fixture2.quotaExceeded
                  eq_refl eq_refl)).
Defined.




(** ** The descriptor [create] submits *)

Lemma Forall2_map_image {A B : Type} (f : A -> B) (R : A -> B -> Prop)
    (l : list A) :
  (forall x, R x (f x)) -> Forall2 R l (map f l).
Proof.
  intros HR. induction l as [| x l IH]; constructor; [apply HR | exact IH].
Qed.

(** The one insert call of a [create] that could read the user data. *)
Lemma create_inserts_once (cs : GCPComputeService) (coreClient : Client)
    (s : State) (userData : string) :
  getCustomUserData coreClient (scope s) = (userData, None) ->
  List.filter isInstancesInsert
    (callsSince s (snd (create cs coreClient s)))
  = [targetInsert s userData].
Proof.
  intros Hud.
  destruct (create_submitted cs coreClient s userData Hud)
    as (more & -> & Hmore).
  cbn [List.filter isInstancesInsert]. now rewrite Hmore.
Qed.

(** X8.  The instance [create] inserts is the one the other operations
    look for: it goes to the project and zone of the scope under the
    machine's name, which are the project, zone and name that [exists],
    [update] and [delete] pass to [InstancesGet] and [InstancesDelete].
    Its machine type is qualified by the zone, and the flags, labels
    and tags are those of the spec. *)
Theorem create_descriptor_identity (cs : GCPComputeService)
    (coreClient : Client) (s : State) (userData : string) :
  getCustomUserData coreClient (scope s) = (userData, None) ->
  let ps := providerSpec (scope s) in
  exists project zone instance,
    List.filter isInstancesInsert
      (callsSince s (snd (create cs coreClient s)))
    = [CallInstancesInsert project zone instance]
    /\ CallInstancesGet project zone (compute.Instance_Name instance)
       = targetGet s
    /\ CallInstancesDelete project zone (compute.Instance_Name instance)
       = targetDelete s
    /\ CallZonesGet project zone = targetZone s
    /\ compute.Instance_MachineType instance
       = "zones/" +:+ Zone ps +:+ "/machineTypes/" +:+ MachineType ps
    /\ compute.CanIpForward instance = CanIPForward ps
    /\ compute.Instance_DeletionProtection instance = DeletionProtection ps
    /\ compute.Instance_Labels instance = Labels ps
    /\ compute.Instance_Tags instance
       = Some {| compute.Tags_Items := Tags ps |}.
Proof.
  intros Hud ps. subst ps.
  exists (projectID (scope s)), (Zone (providerSpec (scope s))),
    (instanceOf (scope s) userData).
  split; [exact (create_inserts_once cs coreClient s userData Hud) |].
  repeat split.
Qed.

Lemma create_descriptor_identity_witness :
  exists project zone instance,
    List.filter isInstancesInsert
      (callsSince Fixture.state
         (snd (create (Fixture.service 1) Fixture.noSecrets Fixture.state)))
    = [CallInstancesInsert project zone instance]
    /\ CallInstancesGet project zone (compute.Instance_Name instance)
       = targetGet Fixture.state
    /\ CallInstancesDelete project zone (compute.Instance_Name instance)
       = targetDelete Fixture.state
    /\ CallZonesGet project zone = targetZone Fixture.state
    /\ compute.Instance_MachineType instance
       = "zones/" +:+ "us-east1-b" +:+ "/machineTypes/" +:+ "n1-standard-1"
    /\ compute.CanIpForward instance = false
    /\ compute.Instance_DeletionProtection instance = false
    /\ compute.Instance_Labels instance = ∅
    /\ compute.Instance_Tags instance
       = Some {| compute.Tags_Items := [] |}.
Proof.
  exact (create_descriptor_identity (Fixture.service 1) Fixture.noSecrets
           Fixture.state "" eq_refl).
Defined.

(** X9.  Every network interface of the spec becomes, in order, one
    interface of the descriptor with exactly one access configuration,
    the zero-valued one, and no address of its own.  A network name
    is qualified by the project and a subnetwork name by the region of
    the spec; an empty name is left empty, not turned into a path that
    ends in a slash. *)
Theorem create_descriptor_interfaces (cs : GCPComputeService)
    (coreClient : Client) (s : State) (userData : string) :
  getCustomUserData coreClient (scope s) = (userData, None) ->
  let r := scope s in
  exists project zone instance,
    List.filter isInstancesInsert
      (callsSince s (snd (create cs coreClient s)))
    = [CallInstancesInsert project zone instance]
    /\ Forall2
         (fun nic interface =>
            compute.AccessConfigs interface = [compute.zeroAccessConfig]
            /\ compute.NetworkIP interface = ""
            /\ (GCPNetworkInterface_Network nic = "" ->
                compute.Network interface = "")
            /\ (GCPNetworkInterface_Network nic <> "" ->
                compute.Network interface
                = "projects/" +:+ projectID r +:+ "/global/networks/"
                  +:+ GCPNetworkInterface_Network nic)
            /\ (GCPNetworkInterface_Subnetwork nic = "" ->
                compute.Subnetwork interface = "")
            /\ (GCPNetworkInterface_Subnetwork nic <> "" ->
                compute.Subnetwork interface
                = "regions/" +:+ Region (providerSpec r) +:+ "/subnetworks/"
                  +:+ GCPNetworkInterface_Subnetwork nic))
         (NetworkInterfaces (providerSpec r))
         (compute.Instance_NetworkInterfaces instance).
Proof.
  intros Hud r. subst r.
  exists (projectID (scope s)), (Zone (providerSpec (scope s))),
    (instanceOf (scope s) userData).
  split; [exact (create_inserts_once cs coreClient s userData Hud) |].
  cbn [instanceOf compute.Instance_NetworkInterfaces].
  unfold networkInterfacesOf. apply Forall2_map_image.
  intros nic.
  cbn [compute.AccessConfigs compute.NetworkIP compute.Network
         compute.Subnetwork].
  split; [reflexivity |]. split; [reflexivity |].
  destruct (GCPNetworkInterface_Network nic) as [| c n];
    destruct (GCPNetworkInterface_Subnetwork nic) as [| c' n'];
    cbn [String.length Nat.eqb]; repeat split; congruence.
Qed.

Lemma create_descriptor_interfaces_witness :
  exists project zone instance,
    List.filter isInstancesInsert
      (callsSince Fixture.state
         (snd (create (Fixture.service 1) Fixture.noSecrets Fixture.state)))
    = [CallInstancesInsert project zone instance]
    /\ length (compute.Instance_NetworkInterfaces instance) = 1%nat.
Proof.
  destruct (create_descriptor_interfaces (Fixture.service 1)
              Fixture.noSecrets Fixture.state "" eq_refl)
    as (project & zone & instance & Hcall & Hall).
  exists project, zone, instance. split; [exact Hcall |].
  apply Forall2_length in Hall. rewrite <- Hall. reflexivity.
Defined.

(** X10.  The metadata of the descriptor is the generated "user-data"
    entry followed by the entries of the spec, one for one, in order
    and unchanged.  Nothing is merged or dropped: a spec entry that
    itself has the key "user-data" follows the generated one. *)
Theorem create_descriptor_metadata (cs : GCPComputeService)
    (coreClient : Client) (s : State) (userData : string) :
  getCustomUserData coreClient (scope s) = (userData, None) ->
  exists project zone instance rest,
    List.filter isInstancesInsert
      (callsSince s (snd (create cs coreClient s)))
    = [CallInstancesInsert project zone instance]
    /\ itemsOf instance
       = {| compute.Key := "user-data"; compute.Value := Some userData |}
         :: rest
    /\ Forall2
         (fun metadata item =>
            compute.Key item = GCPMetadata_Key metadata
            /\ compute.Value item = GCPMetadata_Value metadata)
         (Metadata (providerSpec (scope s))) rest.
Proof.
  intros Hud.
  exists (projectID (scope s)), (Zone (providerSpec (scope s))),
    (instanceOf (scope s) userData).
  eexists.
  split; [exact (create_inserts_once cs coreClient s userData Hud) |].
  split; [reflexivity |].
  apply Forall2_map_image. intros metadata. split; reflexivity.
Qed.

Lemma create_descriptor_metadata_witness :
  exists project zone instance rest,
    List.filter isInstancesInsert
      (callsSince Fixture.state
         (snd (create (Fixture.service 1) Fixture.noSecrets Fixture.state)))
    = [CallInstancesInsert project zone instance]
    /\ itemsOf instance
       = {| compute.Key := "user-data"; compute.Value := Some "" |} :: rest
    /\ length rest = 0%nat.
Proof.
  destruct (create_descriptor_metadata (Fixture.service 1)
              Fixture.noSecrets Fixture.state "" eq_refl)
    as (project & zone & instance & rest & Hcall & Hitems & Hall).
  exists project, zone, instance, rest.
  split; [exact Hcall |]. split; [exact Hitems |].
  apply Forall2_length in Hall. rewrite <- Hall. reflexivity.
Defined.

(** X11.  Disks and service accounts are translated one for one and in
    order, for any number of them.  An attached disk has the boot and
    auto-delete flags, size, image and labels of its spec disk, and the
    disk type qualified by the zone; a service account keeps its email
    and scopes. *)
Theorem create_descriptor_disks_accounts (cs : GCPComputeService)
    (coreClient : Client) (s : State) (userData : string) :
  getCustomUserData coreClient (scope s) = (userData, None) ->
  let ps := providerSpec (scope s) in
  exists project zone instance,
    List.filter isInstancesInsert
      (callsSince s (snd (create cs coreClient s)))
    = [CallInstancesInsert project zone instance]
    /\ Forall2
         (fun disk attached =>
            compute.Boot attached = GCPDisk_Boot disk
            /\ compute.AutoDelete attached = GCPDisk_AutoDelete disk
            /\ compute.InitializeParams attached
               = Some {| compute.DiskSizeGb := GCPDisk_SizeGb disk;
                         compute.DiskType :=
                           "zones/" +:+ Zone ps +:+ "/diskTypes/"
                           +:+ GCPDisk_Type disk;
                         compute.InitializeParams_Labels :=
                           GCPDisk_Labels disk;
                         compute.SourceImage := GCPDisk_Image disk |})
         (Disks ps) (compute.Instance_Disks instance)
    /\ Forall2
         (fun sa account =>
            compute.Email account = GCPServiceAccount_Email sa
            /\ compute.Scopes account = GCPServiceAccount_Scopes sa)
         (ServiceAccounts ps) (compute.Instance_ServiceAccounts instance).
Proof.
  intros Hud ps. subst ps.
  exists (projectID (scope s)), (Zone (providerSpec (scope s))),
    (instanceOf (scope s) userData).
  split; [exact (create_inserts_once cs coreClient s userData Hud) |].
  split; apply Forall2_map_image; intros x; repeat split.
Qed.

Lemma create_descriptor_disks_accounts_witness :
  exists project zone instance,
    List.filter isInstancesInsert
      (callsSince Fixture.state
         (snd (create (Fixture.service 1) Fixture.noSecrets Fixture.state)))
    = [CallInstancesInsert project zone instance]
    /\ length (compute.Instance_Disks instance) = 2%nat
    /\ length (compute.Instance_ServiceAccounts instance) = 0%nat.
Proof.
  destruct (create_descriptor_disks_accounts (Fixture.service 1)
              Fixture.noSecrets Fixture.state "" eq_refl)
    as (project & zone & instance & Hcall & Hdisks & Haccounts).
  exists project, zone, instance. split; [exact Hcall |].
  apply Forall2_length in Hdisks, Haccounts.
  rewrite <- Hdisks, <- Haccounts. split; reflexivity.
Defined.

(** ** [exists], [delete] and [update]: what they touch *)

(** The calls of [exists]. *)
Lemma exists_read_only_calls (cs : GCPComputeService) (s : State) :
  callsSince s (snd (exists_ cs s)) = [targetZone s]
  \/ callsSince s (snd (exists_ cs s)) = [targetZone s; targetGet s].
Proof.
  unfold callsSince. rewrite exists_unfold.
  destruct (zoneReply cs s) as [z | zerr].
  - right. cbv zeta.
    destruct (instanceReply cs s _) as [i | err];
      [| destruct (isNotFoundError err)]; cbn [snd calls logCall];
      rewrite <- app_assoc; apply drop_app_length.
  - left. cbn [snd calls logCall]. apply drop_app_length.
Qed.

(** X12.  [exists] only reads: it asks for the zone, then, only when the
    zone lookup succeeded, for the instance, and makes no other call.
    It does not sleep, records no event and leaves the scope as it
    was. *)
Theorem exists_read_only (cs : GCPComputeService) (s : State) :
  let s' := snd (exists_ cs s) in
  scope s' = scope s
  /\ events s' = events s
  /\ clock s' = clock s
  /\ (callsSince s s' = [targetZone s]
      \/ callsSince s s' = [targetZone s; targetGet s])
  /\ (callsSince s s' = [targetZone s] <->
      exists err, zoneReply cs s = inr err).
Proof.
  cbv zeta. unfold callsSince. rewrite exists_unfold.
  destruct (zoneReply cs s) as [z | zerr].
  - cbv zeta.
    assert (Hcalls :
              drop (length (calls s))
                (calls (logCall (targetGet s) (logCall (targetZone s) s)))
              = [targetZone s; targetGet s]).
    { cbn [calls logCall]. rewrite <- app_assoc. apply drop_app_length. }
    destruct (instanceReply cs s _) as [i | err];
      [| destruct (isNotFoundError err)]; cbn [snd]; rewrite Hcalls;
      (split; [reflexivity |]); (split; [reflexivity |]);
      (split; [reflexivity |]); (split; [now right |]);
      (split; [discriminate | intros [? ?]; discriminate]).
  - cbn [snd calls logCall]. rewrite drop_app_length.
    split; [reflexivity |]. split; [reflexivity |].
    split; [reflexivity |]. split; [now left |].
    split; [intros _; now exists zerr | reflexivity].
Qed.

Lemma delete_unfold (cs : GCPComputeService) (s : State) :
  delete cs s =
  let s1 := snd (exists_ cs s) in
  match fst (exists_ cs s) with
  | (_, Some err) => (Some err, s1)
  | (false, None) => (None, s1)
  | (true, None) =>
      let s2 := logCall (targetDelete s) s1 in
      match InstancesDelete cs (calls s1) (projectID (scope s))
              (Zone (providerSpec (scope s)))
              (Name (Meta (machine (scope s)))) with
      | inr err =>
          (Some (ErrorString
             ("failed to delete instance via compute service: "
              +:+ Error err)), s2)
      | inl operation =>
          let wait :=
            waitUntilOperationCompleted cs (Zone (providerSpec (scope s)))
              (compute.Operation_Name operation) s2 in
          match snd (fst wait) with
          | Some err =>
              (Some (ErrorString
                 ("failed to wait for delete operation via compute service. Operation status: "
                  +:+ fmtOperation (fst (fst wait)) +:+ ". Error: "
                  +:+ Error err)), snd wait)
          | None => (None, snd wait)
          end
      end
  end.
Proof.
  unfold delete, bind, gets, callInstancesDelete, targetDelete.
  destruct (exists_ cs s) as [[found [err |]] s1]; cbn [fst snd].
  - destruct found; reflexivity.
  - destruct found; [| reflexivity].
    destruct (InstancesDelete cs (calls s1) _ _ _) as [operation | err];
      [| reflexivity].
    cbv zeta.
    destruct (waitUntilOperationCompleted cs _ _ _) as [[op [err |]] s3];
      reflexivity.
Qed.

(** X13.  When [exists] fails, [delete] fails with the very same error
    and stops there: nothing is deleted.  So a zone lookup that fails,
    even with a 404, makes [delete] fail after that one call; [delete]
    does not treat a missing zone as a missing instance. *)
Theorem delete_propagates_lookup_failure (cs : GCPComputeService)
    (s : State) :
  (forall found err s1,
     exists_ cs s = ((found, Some err), s1) ->
     delete cs s = (Some err, s1)
     /\ List.filter isInstancesDelete (callsSince s (snd (delete cs s)))
        = [])
  /\ (forall err,
        zoneReply cs s = inr err ->
        fst (delete cs s)
        = Some (ErrorString
                  ("unable to verify project/zone exists: "
                   +:+ projectID (scope s) +:+ "/"
                   +:+ Zone (providerSpec (scope s)) +:+ "; err: "
                   +:+ Error err))
        /\ callsSince s (snd (delete cs s)) = [targetZone s]).
Proof.
  split.
  - intros found err s1 Hex.
    assert (Hdel : delete cs s = (Some err, s1)).
    { rewrite delete_unfold, Hex. cbv zeta. cbn [fst snd].
      destruct found; reflexivity. }
    rewrite Hdel. split; [reflexivity |]. cbn [snd].
    pose proof (exists_read_only_calls cs s) as Hcalls.
    rewrite Hex in Hcalls. cbn [snd] in Hcalls.
    destruct Hcalls as [-> | ->]; reflexivity.
  - intros err Hzone. rewrite delete_unfold, exists_unfold, Hzone.
    cbv zeta. cbn [fst snd]. split; [reflexivity |].
    unfold callsSince. cbn [calls logCall]. apply drop_app_length.
Qed.

Lemma delete_propagates_lookup_failure_witness :
  fst (delete (Fixture.withZonesGet (inr Fixture.notFound)
                 (Fixture.service 1)) Fixture.state)
  = Some (ErrorString
            "unable to verify project/zone exists: testProject/us-east1-b; err: googleapi: Error 404: notFound")
  /\ callsSince Fixture.state
       (snd (delete (Fixture.withZonesGet (inr Fixture.notFound)
                       (Fixture.service 1)) Fixture.state))
     = [targetZone Fixture.state].
Proof.
  exact (proj2 (delete_propagates_lookup_failure
                  (Fixture.withZonesGet (inr Fixture.notFound)
                     (Fixture.service 1)) Fixture.state)
           Fixture.notFound eq_refl).
Defined.





(** X15.  No error that [create], [update], [exists] or [delete] returns
    is recognised by [isNotFoundError]: every error of the compute
    service is turned into text before it is returned, also a 404.  A
    caller cannot tell a missing instance from another failure by the
    error of these operations. *)
Theorem returned_errors_not_recognised (cs : GCPComputeService)
    (coreClient : Client) (s : State) :
  (forall err,
     fst (create cs coreClient s) = Some err -> isNotFoundError err = false)
  /\ (forall err,
        fst (update cs s) = Some err -> isNotFoundError err = false)
  /\ (forall err,
        snd (fst (exists_ cs s)) = Some err -> isNotFoundError err = false)
  /\ (forall err,
        fst (delete cs s) = Some err -> isNotFoundError err = false).
Proof.
  assert (Hexists : forall err,
            snd (fst (exists_ cs s)) = Some err ->
            isNotFoundError err = false).
  { intros err. rewrite exists_unfold.
    destruct (zoneReply cs s) as [z | zerr]; [| now intros [= <-]].
    cbv zeta.
    destruct (instanceReply cs s _) as [i | ierr]; [discriminate |].
    destruct (isNotFoundError ierr); [discriminate | now intros [= <-]]. }
  split; [| split; [| split]].
  - intros err. rewrite create_unfold. cbn [fst].
    destruct (proj1 (createBody_outcomes cs coreClient s))
      as [-> | [msg ->]]; [discriminate | now intros [= <-]].
  - intros err. unfold update. rewrite reconcile_unfold.
    destruct (instanceReply cs s (calls s)) as [inst | ierr];
      [| now intros [= <-]].
    destruct (compute.Instance_NetworkInterfaces inst);
      [now intros [= <-] | discriminate].
  - exact Hexists.
  - intros err. rewrite delete_unfold. cbv zeta.
    destruct (fst (exists_ cs s)) as [found [eerr |]] eqn:Hfound.
    + intros Herr. apply Hexists.
      destruct found; cbn [fst] in Herr; now rewrite <- Herr.
    + destruct found; [| discriminate].
      destruct (InstancesDelete cs _ _ _ _) as [operation | derr];
        [| now intros [= <-]].
      destruct (snd (fst (waitUntilOperationCompleted cs _ _ _)));
        [now intros [= <-] | discriminate].
Qed.

Lemma returned_errors_not_recognised_witness :
  isNotFoundError Fixture.notFound = true
  /\ isNotFoundError
       (ErrorString
          "failed to get instance via compute service: googleapi: Error 404: notFound")
     = false.
Proof.
  split; [reflexivity |].
  apply (proj1 (proj2 (returned_errors_not_recognised Fixture.absent
                         Fixture.noSecrets Fixture.state))).
  reflexivity.
Defined.

(** X16.  [update] makes exactly one call, the [InstancesGet] of the
    target, does not sleep and records no event.  It returns nil exactly
    when that call returned an instance with at least one network
    interface; its error keeps the text of a failed call, and quotes the
    name of an instance without interfaces.  The spec, the name, the
    project and the provider ID of the scope are never changed. *)
Theorem update_single_read (cs : GCPComputeService) (s : State) :
  let read := instanceReply cs s (calls s) in
  let result := update cs s in
  let s' := snd result in
  callsSince s s' = [targetGet s]
  /\ clock s' = clock s
  /\ events s' = events s
  /\ providerSpec (scope s') = providerSpec (scope s)
  /\ Meta (machine (scope s')) = Meta (machine (scope s))
  /\ projectID (scope s') = projectID (scope s)
  /\ providerID (scope s') = providerID (scope s)
  /\ (fst result = None <->
      exists freshInstance networkInterface rest,
        read = inl freshInstance
        /\ compute.Instance_NetworkInterfaces freshInstance
           = networkInterface :: rest)
  /\ (forall err,
        read = inr err ->
        fst result
        = Some (ErrorString
                  ("failed to get instance via compute service: "
                   +:+ Error err)))
  /\ (forall freshInstance,
        read = inl freshInstance ->
        compute.Instance_NetworkInterfaces freshInstance = [] ->
        fst result
        = Some (ErrorString
                  ("could not find network interfaces for instance "
                   +:+ quote (compute.Instance_Name freshInstance)))).
Proof.
  cbv zeta. unfold update.
  destruct (reconcile_target cs s) as (Hp & Hid & Hps & Hmeta & He & Hc).
  cbv zeta in Hp, Hid, Hps, Hmeta, He, Hc.
  split; [unfold callsSince; rewrite reconcile_calls;
          apply drop_app_length |].
  split; [exact Hc |]. split; [exact He |]. split; [exact Hps |].
  split; [exact Hmeta |]. split; [exact Hp |]. split; [exact Hid |].
  rewrite reconcile_unfold.
  destruct (instanceReply cs s (calls s)) as [inst | err].
  - destruct (compute.Instance_NetworkInterfaces inst) as [| nic rest]
      eqn:Hnics; cbn [fst].
    + split; [split; [discriminate |] |].
      * intros (i & n & r & [= <-] & Hr). congruence.
      * split; [discriminate |]. now intros i [= <-] _.
    + split; [split; [| reflexivity] |].
      * intros _. exists inst, nic, rest. split; [reflexivity | exact Hnics].
      * split; [discriminate |]. intros i [= <-] Hr. congruence.
  - cbn [fst]. split; [split; [discriminate |] |].
    + intros (i & n & r & [=] & _).
    + split; [now intros e [= <-] | discriminate].
Qed.

Lemma update_single_read_witness :
  fst (update Fixture.absent Fixture.state)
  = Some (ErrorString
            "failed to get instance via compute service: googleapi: Error 404: notFound").
Proof.
  apply (proj1 (proj2 (proj2 (proj2 (proj2 (proj2 (proj2 (proj2 (proj2
           (update_single_read Fixture.absent Fixture.state)))))))))
           Fixture.notFound).
  reflexivity.
Defined.

(** Refreshing twice from the same reply writes the same status. *)
Lemma reconcile_again (cs : GCPComputeService) (s : State) :
  let s1 := snd (reconcileMachineWithCloudState cs s) in
  instanceReply cs s (calls s1) = instanceReply cs s (calls s) ->
  persisted (snd (reconcileMachineWithCloudState cs s1)) = persisted s1.
Proof.
  cbv zeta. intros Hsame.
  destruct (reconcile_target cs s) as (Hp & Hid & Hps & Hmeta & _).
  cbv zeta in Hp, Hid, Hps, Hmeta.
  assert (Hreply :
            instanceReply cs (snd (reconcileMachineWithCloudState cs s))
              (calls (snd (reconcileMachineWithCloudState cs s)))
            = instanceReply cs s (calls s)).
  { rewrite <- Hsame. unfold instanceReply. now rewrite Hp, Hps, Hmeta. }
  rewrite (persisted_reconcile cs (snd _)), Hreply.
  rewrite (persisted_reconcile cs s).
  destruct (instanceReply cs s (calls s)) as [inst | err]; [| reflexivity].
  destruct (compute.Instance_NetworkInterfaces inst); [reflexivity |].
  unfold projected. now rewrite Hid.
Qed.

(** X17.  An [update] right after a [create] changes nothing when the
    instance has not changed: if [InstancesGet] replies to the update
    what it replied to the refresh that ended [create], the addresses,
    provider ID and provider status stay as [create] left them. *)
Theorem update_after_create (cs : GCPComputeService) (coreClient : Client)
    (s : State) :
  let body := snd (createBody cs coreClient s) in
  let created := snd (create cs coreClient s) in
  instanceReply cs s (calls created) = instanceReply cs s (calls body) ->
  persisted (snd (update cs created)) = persisted created.
Proof.
  cbv zeta. rewrite create_unfold. cbn [snd]. intros Hsame.
  unfold update. apply reconcile_again. cbv zeta.
  unfold instanceReply in *.
  now rewrite (proj1 (createBody_frame cs coreClient s)).
Qed.

Lemma update_after_create_witness :
  persisted
    (snd (update (Fixture.service 1)
            (snd (create (Fixture.service 1) Fixture.noSecrets
                    Fixture.state))))
  = persisted (snd (create (Fixture.service 1) Fixture.noSecrets
                      Fixture.state)).
Proof.
  apply (update_after_create (Fixture.service 1) Fixture.noSecrets
           Fixture.state).
  reflexivity.
Defined.

(** ** The actuator *)

(** X18.  When the scope cannot be built, each of the four entry points
    of the actuator returns the same error, which quotes the machine's
    name and keeps the text of the cause ([Exists] returns false with
    it), and does nothing else: no call to the compute service, no
    event, no scope closed. *)
Theorem actuator_scope_failure
    (newMachineScope :
       machineScopeParams -> (machineScope * GCPComputeService) + error)
    (coreClient : Client) (machine : Machine) (w : World) (err : error) :
  newMachineScope {| params_coreClient := coreClient;
                     params_machine := machine |} = inr err ->
  let failure :=
    ErrorString ("failed to create scope for machine "
                 +:+ quote (Name (Meta machine)) +:+ ": " +:+ Error err) in
  Actuator.Create newMachineScope coreClient machine w = (Some failure, w)
  /\ Actuator.Exists newMachineScope coreClient machine w
     = ((false, Some failure), w)
  /\ Actuator.Update newMachineScope coreClient machine w
     = (Some failure, w)
  /\ Actuator.Delete newMachineScope coreClient machine w
     = (Some failure, w).
Proof.
  intros Hscope failure. subst failure.
  unfold Actuator.Create, Actuator.Exists, Actuator.Update, Actuator.Delete.
  rewrite Hscope. repeat split.
Qed.

Lemma actuator_scope_failure_witness :
  Actuator.Delete Fixture2.noMachineScope Fixture.noSecrets Fixture2.machine
    Fixture2.world
  = (Some (ErrorString
             ("failed to create scope for machine " +:+ quote "testInstance"
              +:+ ": " +:+ "failed to get machine config")),
     Fixture2.world).
Proof.
  exact (proj2 (proj2 (proj2
           (actuator_scope_failure Fixture2.noMachineScope Fixture.noSecrets
              Fixture2.machine Fixture2.world
              (ErrorString "failed to get machine config") eq_refl)))).
Defined.

(** X19.  With a scope, every entry point returns what the reconciler
    returns and leaves the calls, events and time the reconciler made.
    [Create] and [Update] close the scope exactly once, after the
    reconciler has run and whether or not it failed, in the state the
    reconciler left it.  [Exists] and [Delete] never close it: they
    persist nothing. *)
Theorem actuator_close_discipline
    (newMachineScope :
       machineScopeParams -> (machineScope * GCPComputeService) + error)
    (coreClient : Client) (machine : Machine) (w : World)
    (sc : machineScope) (cs : GCPComputeService) :
  newMachineScope {| params_coreClient := coreClient;
                     params_machine := machine |} = inl (sc, cs) ->
  let world (run : State) (w' : World) : Prop :=
    recorded w' = events run /\ seen w' = calls run
    /\ elapsed w' = clock run in
  (let run := create cs coreClient (enter sc w) in
   let out := Actuator.Create newMachineScope coreClient machine w in
   fst out = fst run /\ world (snd run) (snd out)
   /\ closed (snd out) = closed w ++ [scope (snd run)])
  /\ (let run := update cs (enter sc w) in
      let out := Actuator.Update newMachineScope coreClient machine w in
      fst out = fst run /\ world (snd run) (snd out)
      /\ closed (snd out) = closed w ++ [scope (snd run)])
  /\ (let run := exists_ cs (enter sc w) in
      let out := Actuator.Exists newMachineScope coreClient machine w in
      fst out = fst run /\ world (snd run) (snd out)
      /\ closed (snd out) = closed w)
  /\ (let run := delete cs (enter sc w) in
      let out := Actuator.Delete newMachineScope coreClient machine w in
      fst out = fst run /\ world (snd run) (snd out)
      /\ closed (snd out) = closed w).
Proof.
  intros Hscope world. subst world. cbv beta zeta.
  unfold Actuator.Create, Actuator.Exists, Actuator.Update, Actuator.Delete.
  rewrite Hscope.
  destruct (create cs coreClient (enter sc w)) as [r1 s1].
  destruct (update cs (enter sc w)) as [r2 s2].
  destruct (exists_ cs (enter sc w)) as [r3 s3].
  destruct (delete cs (enter sc w)) as [r4 s4].
  repeat split.
Qed.

Lemma actuator_close_discipline_witness :
  closed (snd (Actuator.Exists Fixture2.newMachineScope Fixture.noSecrets
                 Fixture2.machine Fixture2.world)) = []
  /\ length (closed (snd (Actuator.Create Fixture2.newMachineScope
                            Fixture.noSecrets Fixture2.machine
                            Fixture2.world))) = 1%nat.
Proof.
  pose proof (actuator_close_discipline Fixture2.newMachineScope
                Fixture.noSecrets Fixture2.machine Fixture2.world
                (Fixture.scopeOf Fixture.spec) (Fixture.service 1) eq_refl)
    as (Hcreate & _ & Hexists & _).
  cbv zeta in Hcreate, Hexists.
  split.
  - exact (proj2 (proj2 Hexists)).
  - rewrite (proj2 (proj2 Hcreate)). reflexivity.
Defined.

(** X20.  What [Update] persists.  When [InstancesGet] returns an
    instance with a network interface, [Update] returns nil and the
    scope it closes holds the refreshed status: the internal IP and the
    external IPs as addresses, the instance's name and status, and the
    provider ID of the scope.  When the call fails or the instance has
    no interface, [Update] returns the error and closes the scope as
    [newMachineScope] built it. *)
Theorem actuator_update_persists
    (newMachineScope :
       machineScopeParams -> (machineScope * GCPComputeService) + error)
    (coreClient : Client) (m : Machine) (w : World)
    (sc : machineScope) (cs : GCPComputeService) :
  newMachineScope {| params_coreClient := coreClient;
                     params_machine := m |} = inl (sc, cs) ->
  let read :=
    InstancesGet cs (seen w) (projectID sc) (Zone (providerSpec sc))
      (Name (Meta (machine sc))) in
  let out := Actuator.Update newMachineScope coreClient m w in
  (forall freshInstance networkInterface rest,
     read = inl freshInstance ->
     compute.Instance_NetworkInterfaces freshInstance
     = networkInterface :: rest ->
     fst out = None
     /\ exists sc',
          closed (snd out) = closed w ++ [sc']
          /\ Addresses (Status (machine sc'))
             = {| Type_ := "InternalIP";
                  Address := compute.NetworkIP networkInterface |}
               :: map (fun config =>
                         {| Type_ := "ExternalIP";
                            Address := compute.AccessConfig_NatIP config |})
                      (compute.AccessConfigs networkInterface)
          /\ providerStatus sc'
             = {| InstanceID := Some (compute.Instance_Name freshInstance);
                  InstanceState :=
                    Some (compute.Instance_Status freshInstance) |}
          /\ ProviderID (Spec (machine sc')) = Some (providerID sc))
  /\ ((forall freshInstance,
         read = inl freshInstance ->
         compute.Instance_NetworkInterfaces freshInstance = []) ->
      (exists e, fst out = Some e)
      /\ closed (snd out) = closed w ++ [sc]).
Proof.
  intros Hscope read out. subst read out.
  unfold Actuator.Update. rewrite Hscope. unfold update.
  rewrite reconcile_unfold. unfold instanceReply.
  cbn [enter scope calls].
  destruct (InstancesGet cs (seen w) _ _ _) as [inst | err].
  - destruct (compute.Instance_NetworkInterfaces inst) as [| nic rest']
      eqn:Hnics; cbn [fst snd Close closed leave].
    + split.
      * intros i n r [= <-] Hn. congruence.
      * intros _. split; [eexists; reflexivity | reflexivity].
    + split.
      * intros i n r [= <-] Hn. rewrite Hnics in Hn.
        injection Hn as <- <-.
        split; [reflexivity |]. eexists. split; [reflexivity |].
        repeat split.
      * intros Hnone. specialize (Hnone inst eq_refl). congruence.
  - cbn [fst snd Close closed leave]. split.
    + intros i n r [=].
    + intros _. split; [eexists; reflexivity | reflexivity].
Qed.

Lemma actuator_update_persists_witness :
  fst (Actuator.Update Fixture2.newMachineScope Fixture.noSecrets
         Fixture2.machine Fixture2.world) = None
  /\ exists sc',
       closed (snd (Actuator.Update Fixture2.newMachineScope
                      Fixture.noSecrets Fixture2.machine Fixture2.world))
       = [sc']
       /\ Addresses (Status (machine sc'))
          = [ {| Type_ := "InternalIP"; Address := "10.0.0.15" |};
              {| Type_ := "ExternalIP"; Address := "35.243.147.143" |} ]
       /\ providerStatus sc'
          = {| InstanceID := Some "testInstance";
               InstanceState := Some "RUNNING" |}
       /\ ProviderID (Spec (machine sc'))
          = Some "gce://testProject/us-east1-b/testInstance".
Proof.
  exact (proj1 (actuator_update_persists Fixture2.newMachineScope
                  Fixture.noSecrets Fixture2.machine Fixture2.world
                  (Fixture.scopeOf Fixture.spec) (Fixture.service 1) eq_refl)
           Fixture.instance _ [] eq_refl eq_refl).
Defined.
